(** * Google Analytics report pipeline: extraction, pagination, retry

    A shallow embedding of [src/__init__.py] (row extraction [get_ga_data],
    page assembly [get_response], retry wrapper [get_dataframes]) together
    with the Python built-ins those functions call, followed by the
    properties of the pipeline.

    Conventions.
    - A Python [str] is a [string]; the built-ins below treat it as a
      sequence of ASCII characters (a byte above 127 is an ordinary
      character that is neither a digit nor a blank).
    - A Python [dict] is an association list kept in insertion order.
    - Exceptions are values of [exn]; a computation that may raise returns
      a [result].
    - The reporting service, [time.sleep], [random.random] and the call
      that builds the service object are the outside world; the functions
      that use them thread a [World] that records what was asked of it. *)

From Stdlib Require Import List String Ascii Bool Arith ZArith NArith QArith Lia.
From Stdlib Require Import DecimalString DecimalPos Sorted Lqa.
Import ListNotations.

Local Open Scope string_scope.
Local Open Scope Z_scope.

(** ** Exceptions and fallible results *)

Inductive exn : Type :=
| HTTPError (reason : string)   (* the class named at line 252; [error.resp.reason] *)
| SampledDataError              (* line 20 *)
| ValueError                    (* [int(value)], [float(value)] *)
| TypeError                     (* [None - int], [zip(_, None)] *)
| IndexError                    (* [[][0]] *)
| OtherError (what : string).   (* an exception of any other class *)

Inductive result (A : Type) : Type :=
| Ok (a : A)
| Raise (e : exn).

Arguments Ok {A} a.
Arguments Raise {A} e.

Definition is_ok {A} (r : result A) : bool :=
  match r with Ok _ => true | Raise _ => false end.

(** ** Python built-ins *)

Module Py.

(** *** Values stored in a row *)

(** A [float] is kept as the decimal number its literal denotes (sign,
    digits, power of ten), before rounding to binary64; [inf] and [nan]
    are the two special literals. *)
Inductive pyfloat : Type :=
| FNan
| FInf (negative : bool)
| FDec (negative : bool) (digits : N) (exp10 : Z).

Inductive value : Type :=
| Str (s : string)
| Int (z : Z)
| Float (f : pyfloat).

(** *** [c in s] for a one-character [c] *)

Fixpoint contains_char (c : ascii) (s : string) : bool :=
  match s with
  | EmptyString => false
  | String a rest => Ascii.eqb a c || contains_char c rest
  end.

(** *** [s.replace(old, new)] for a non-empty [old]

    Occurrences are found left to right and do not overlap: after a match
    the scan resumes behind it.  [skip] counts the characters of a match
    that are still to be passed over. *)

Fixpoint replace_from (old new : string) (skip : nat) (s : string) : string :=
  match s with
  | EmptyString => EmptyString
  | String c rest =>
      match skip with
      | S k => replace_from old new k rest
      | O =>
          if String.prefix old s
          then new ++ replace_from old new (String.length old - 1) rest
          else String c (replace_from old new 0 rest)
      end
  end.

Definition replace (old new s : string) : string := replace_from old new 0 s.

(** [old in s] for a non-empty [old]. *)
Fixpoint contains (old s : string) : bool :=
  match s with
  | EmptyString => false
  | String _ rest => String.prefix old s || contains old rest
  end.

(** *** [str(i)] for an [int] *)

Definition str (z : Z) : string := NilZero.string_of_int (Z.to_int z).

(** *** Numeric literals: [int(s)] and [float(s)] *)

Definition is_space (c : ascii) : bool :=
  let n := nat_of_ascii c in
  ((9 <=? n) && (n <=? 13) || (28 <=? n) && (n <=? 32))%nat.

Fixpoint lstrip (s : list ascii) : list ascii :=
  match s with
  | c :: rest => if is_space c then lstrip rest else s
  | [] => []
  end.

Definition strip (s : list ascii) : list ascii :=
  rev (lstrip (rev (lstrip s))).

Definition digit (c : ascii) : option N :=
  let n := N_of_ascii c in
  if (48 <=? n)%N && (n <=? 57)%N then Some (n - 48)%N else None.

(** [digits_tail s acc cnt] continues a digit part of which [cnt] digits
    with value [acc] were read: further digits, each optionally preceded
    by one underscore.  It returns the value, the number of digits and the
    unread rest. *)
Fixpoint digits_tail (s : list ascii) (acc : N) (cnt : nat)
  : N * nat * list ascii :=
  match s with
  | [] => (acc, cnt, [])
  | c :: rest =>
      match digit c with
      | Some d => digits_tail rest (10 * acc + d)%N (S cnt)
      | None =>
          if Ascii.eqb c "_" then
            match rest with
            | c2 :: rest2 =>
                match digit c2 with
                | Some d => digits_tail rest2 (10 * acc + d)%N (S cnt)
                | None => (acc, cnt, s)
                end
            | [] => (acc, cnt, s)
            end
          else (acc, cnt, s)
      end
  end.

(** A digit part: at least one digit.  [None] when [s] starts with none. *)
Definition digitpart (s : list ascii) : option (N * nat * list ascii) :=
  match s with
  | c :: rest =>
      match digit c with
      | Some d => Some (digits_tail rest d 1%nat)
      | None => None
      end
  | [] => None
  end.

(** An optional sign: [true] for ["-"]. *)
Definition sign (s : list ascii) : bool * list ascii :=
  match s with
  | c :: rest =>
      if Ascii.eqb c "-" then (true, rest)
      else if Ascii.eqb c "+" then (false, rest)
      else (false, s)
  | [] => (false, [])
  end.

(** [int(s)], base ten: blanks around, a sign, a digit part, nothing else. *)
Definition int (s : string) : option Z :=
  let '(neg, body) := sign (strip (list_ascii_of_string s)) in
  match digitpart body with
  | Some (n, _, []) => Some (if neg then - Z.of_N n else Z.of_N n)
  | _ => None
  end.

Definition lower (c : ascii) : ascii :=
  let n := nat_of_ascii c in
  if ((65 <=? n) && (n <=? 90))%nat then ascii_of_nat (n + 32) else c.

Definition is_e (c : ascii) : bool := Ascii.eqb (lower c) "e".

(** The exponent of a float literal, when one follows. *)
Definition exponent (s : list ascii) : option (Z * list ascii) :=
  match s with
  | c :: rest =>
      if is_e c then
        let '(neg, body) := sign rest in
        match digitpart body with
        | Some (n, _, rest') =>
            Some (if neg then - Z.of_N n else Z.of_N n, rest')
        | None => None
        end
      else Some (0, s)
  | [] => Some (0, [])
  end.

(** [[digitpart] "." digitpart | digitpart ["."]], then the exponent. *)
Definition floatnumber (neg : bool) (s : list ascii) : option pyfloat :=
  let finish (m : N) (frac : nat) (rest : list ascii) :=
    match exponent rest with
    | Some (e, []) => Some (FDec neg m (e - Z.of_nat frac))
    | _ => None
    end in
  match digitpart s with
  | Some (i, _, rest) =>
      match rest with
      | c :: rest1 =>
          if Ascii.eqb c "." then
            match digitpart rest1 with
            | Some _ =>
                let '(m, cnt, rest2) := digits_tail rest1 i 0%nat in
                finish m cnt rest2
            | None => finish i 0%nat rest1
            end
          else finish i 0%nat rest
      | [] => finish i 0%nat rest
      end
  | None =>
      match s with
      | c :: rest1 =>
          if Ascii.eqb c "." then
            match digitpart rest1 with
            | Some (f, cnt, rest2) => finish f cnt rest2
            | None => None
            end
          else None
      | [] => None
      end
  end.

(** [float(s)]: blanks around, a sign, then [inf], [infinity], [nan] in any
    case, or a decimal number. *)
Definition float (s : string) : option pyfloat :=
  let '(neg, body) := sign (strip (list_ascii_of_string s)) in
  let word := string_of_list_ascii (map lower body) in
  if String.eqb word "inf" || String.eqb word "infinity" then Some (FInf neg)
  else if String.eqb word "nan" then Some FNan
  else floatnumber neg body.

(** *** [dict], in insertion order *)

Definition dict : Type := list (string * value).

(** [d[k] = v]: an existing key keeps its place, a new key goes last. *)
Fixpoint setitem (k : string) (v : value) (d : dict) : dict :=
  match d with
  | [] => [(k, v)]
  | (k', v') :: rest =>
      if String.eqb k' k then (k, v) :: rest
      else (k', v') :: setitem k v rest
  end.

(** [d.get(k)]. *)
Fixpoint get (k : string) (d : dict) : option value :=
  match d with
  | [] => None
  | (k', v') :: rest => if String.eqb k' k then Some v' else get k rest
  end.

Definition keys (d : dict) : list string := map fst d.

End Py.

(** ** The reporting API's data (Analytics Reporting API v4, as read by the code)

    Each record holds the keys the code reads.  A key read with
    [.get(key, default)] is a field holding the default when the key is
    absent; a key read with [.get(key)] and no default is an [option]. *)

Record MetricHeaderEntry : Type := {
  name : string                          (* 'name' *)
}.

Record ColumnHeader : Type := {
  dimensionHeaders : list string;        (* 'dimensions' *)
  metricHeaderEntries : list MetricHeaderEntry
                                         (* 'metricHeader' / 'metricHeaderEntries' *)
}.

Record DateRangeValues : Type := {
  values : option (list string)          (* 'values', read without default *)
}.

Record ReportRow : Type := {
  dimensions : list string;              (* 'dimensions' *)
  metrics : list DateRangeValues         (* 'metrics' *)
}.

Record ReportData : Type := {
  rows : list ReportRow;                 (* 'rows' *)
  rowCount : option Z;                   (* 'rowCount', read without default *)
  samplesReadCounts : list string;       (* 'samplesReadCounts' *)
  samplingSpaceSizes : list string       (* 'samplingSpaceSizes' *)
}.

Record Report : Type := {
  columnHeader : ColumnHeader;           (* 'columnHeader' *)
  data : ReportData;                     (* 'data' *)
  nextPageToken : option string          (* 'nextPageToken', read without default *)
}.

Record Response : Type := {
  reports : list Report                  (* 'reports' *)
}.

(** ** Row extraction: [get_ga_data], lines 77-107 *)

(** Lines 101-104: the value stored for one metric value string. *)
Definition convert (value : string) : result Py.value :=
  if Py.contains_char "," value || Py.contains_char "." value then
    match Py.float value with
    | Some f => Ok (Py.Float f)
    | None => Raise ValueError
    end
  else
    match Py.int value with
    | Some z => Ok (Py.Int z)
    | None => Raise ValueError
    end.

(** Lines 96-97: [for header, dimension in zip(dimensionHeaders, dimensions)]. *)
Fixpoint fill_dimensions (pairs : list (string * string)) (dicts : Py.dict)
  : Py.dict :=
  match pairs with
  | [] => dicts
  | (header, dimension) :: rest =>
      fill_dimensions rest (Py.setitem header (Py.Str dimension) dicts)
  end.

(** Lines 100-104: [for metricHeader, value in zip(metricHeaders, ...)]. *)
Fixpoint fill_metrics (pairs : list (MetricHeaderEntry * string))
  (dicts : Py.dict) : result Py.dict :=
  match pairs with
  | [] => Ok dicts
  | (metricHeader, value) :: rest =>
      match convert value with
      | Ok x => fill_metrics rest (Py.setitem (name metricHeader) x dicts)
      | Raise e => Raise e
      end
  end.

(** Lines 99-104: [for i, values in enumerate(dateRangeValues)]. *)
Fixpoint fill_date_ranges (metricHeaders : list MetricHeaderEntry)
  (dateRangeValues : list DateRangeValues) (dicts : Py.dict)
  : result Py.dict :=
  match dateRangeValues with
  | [] => Ok dicts
  | vs :: rest =>
      match values vs with
      | None => Raise TypeError
      | Some strings =>
          match fill_metrics (combine metricHeaders strings) dicts with
          | Ok dicts' => fill_date_ranges metricHeaders rest dicts'
          | Raise e => Raise e
          end
      end
  end.

(** Lines 90-104: the mapping built for one row. *)
Definition row_dict (header : ColumnHeader) (row : ReportRow)
  : result Py.dict :=
  fill_date_ranges (metricHeaderEntries header) (metrics row)
    (fill_dimensions (combine (dimensionHeaders header) (dimensions row)) []).

(** Lines 89-106: [for row in report.get('data', {}).get('rows', [])]. *)
Fixpoint rows_loop (header : ColumnHeader) (rs : list ReportRow)
  (report_ToList : list Py.dict) : result (list Py.dict) :=
  match rs with
  | [] => Ok report_ToList
  | row :: rest =>
      match row_dict header row with
      | Ok dicts => rows_loop header rest (report_ToList ++ [dicts])
      | Raise e => Raise e
      end
  end.

(** Lines 84-106: [for report in response.get('reports', [])]. *)
Fixpoint reports_loop (rps : list Report) (report_ToList : list Py.dict)
  : result (list Py.dict) :=
  match rps with
  | [] => Ok report_ToList
  | report :: rest =>
      match rows_loop (columnHeader report) (rows (data report)) report_ToList with
      | Ok report_ToList' => reports_loop rest report_ToList'
      | Raise e => Raise e
      end
  end.

Definition get_ga_data (response : Response) : result (list Py.dict) :=
  reports_loop (reports response) [].

(** ** The table: [pd.DataFrame(completeData)] and its column names

    A table has one column per distinct key of the rows, in the order the
    keys first appear; a row that lacks a key has an empty cell there. *)

Record DataFrame : Type := {
  columns : list string;
  cells : list (list (option Py.value))
}.

Definition add_column (cols : list string) (k : string) : list string :=
  if existsb (String.eqb k) cols then cols else cols ++ [k].

Definition union_keys (rs : list Py.dict) : list string :=
  fold_left (fun cols d => fold_left add_column (Py.keys d) cols) rs [].

Definition pd_DataFrame (rs : list Py.dict) : DataFrame :=
  let cols := union_keys rs in
  {| columns := cols;
     cells := map (fun d => map (fun k => Py.get k d) cols) rs |}.

(** Line 183, on one column name: [.str.replace('ga:', '')]. *)
Definition strip_ga (column : string) : string := Py.replace "ga:" "" column.

(** Line 183: [df.columns = df.columns.str.replace('ga:', '')]. *)
Definition strip_columns (df : DataFrame) : DataFrame :=
  {| columns := map strip_ga (columns df); cells := cells df |}.

(** ** The outside world *)

Record Dimension : Type := { dimension_name : string }.   (* {'name': string} *)
Record Metric : Type := { expression : string }.          (* {'expression': string} *)

(** The body of one [reports().batchGet] request, lines 57-74. *)
Record ReportRequest : Type := {
  viewId : string;
  dateRanges : list (string * string);
  requestDimensions : list (list Dimension);
  requestMetrics : list (list Metric);
  samplingLevel : string;
  pageSize : Z;
  pageToken : string
}.

(** What the program has asked of the world so far: the requests sent to
    the reporting service, how often the service object was built, the
    durations slept and how many random numbers were drawn. *)
Record World : Type := {
  requests : list ReportRequest;
  builds : nat;
  sleeps : list Q;
  draws : nat
}.

Definition new_world : World :=
  {| requests := []; builds := 0; sleeps := []; draws := 0 |}.

(** A computation in the world that may raise. *)
Definition M (A : Type) : Type := World -> result A * World.

Definition ret {A} (a : A) : M A := fun w => (Ok a, w).

Definition raise {A} (e : exn) : M A := fun w => (Raise e, w).

Definition bind {A B} (m : M A) (k : A -> M B) : M B :=
  fun w =>
    match m w with
    | (Ok a, w') => k a w'
    | (Raise e, w') => (Raise e, w')
    end.

Notation "x <- m ;; k" := (bind m (fun x => k))
  (at level 61, m at next level, right associativity).

(** The service object returned by [build]. *)
Inductive Analytics : Type := analyticsreporting_v4.

(** The tokens of the requests sent so far. *)
Definition tokens_sent (w : World) : list string := map pageToken (requests w).

(** ** Page arithmetic *)

(** [math.ceil(a / b)] for [b > 0].  Python divides in binary64 and rounds
    up; the quotient here is the exact one, which agrees with it for every
    row count a report can reach (below 2^53 / 10^5). *)
Definition ceil_div (a b : Z) : Z := - ((- a) / b).

(** Lines 165-167: [for i in range(n): offset_list.append(offset);
    offset += 100000]. *)
Fixpoint offsets_loop (n : nat) (offset : Z) (offset_list : list Z) : list Z :=
  match n with
  | O => offset_list
  | S n' => offsets_loop n' (offset + 100000) (offset_list ++ [offset])
  end.

(** Lines 157-170. *)
Definition offset_list (row_count : Z) (nextPageToken : option string)
  : list Z :=
  if (100000 <? row_count) &&
     match nextPageToken with Some _ => true | None => false end
  then offsets_loop (Z.to_nat (ceil_div row_count 100000)) 0 []
  else [] ++ [0].

(** Line 150: a list is true when it is not empty. *)
Definition truthy {A} (l : list A) : bool :=
  match l with [] => false | _ :: _ => true end.

Definition sampled (report_data : ReportData) : bool :=
  truthy (samplesReadCounts report_data) ||
  truthy (samplingSpaceSizes report_data).

Section Pipeline.

(** The view queried (a global of the module, set at deployment). *)
Variable VIEW_ID : string.

(** The reporting service: its answer to a request, given the requests it
    has received before. *)
Variable execute : list ReportRequest -> ReportRequest -> result Response.

(** [random.random()]: the value of the n-th draw. *)
Variable random : nat -> Q.

(** Lines 30-38.  The credentials are configuration (a global of the
    module); with them the call returns the service object. *)
Definition initialize_analyticsreporting : M Analytics :=
  fun w =>
    (Ok analyticsreporting_v4,
     {| requests := requests w; builds := S (builds w);
        sleeps := sleeps w; draws := draws w |}).

(** Lines 57-74: the body of the request. *)
Definition report_request (startDate endDate : string)
  (dimensions : list Dimension) (metrics : list Metric)
  (nextPageToken : string) : ReportRequest :=
  {| viewId := VIEW_ID;
     dateRanges := [(startDate, endDate)];
     requestDimensions := [dimensions];
     requestMetrics := [metrics];
     samplingLevel := "LARGE";
     pageSize := 100000;
     pageToken := nextPageToken |}.

(** Lines 54-75. *)
Definition get_report (analytics : Analytics) (startDate endDate : string)
  (dimensions : list Dimension) (metrics : list Metric)
  (nextPageToken : string) : M Response :=
  fun w =>
    let body :=
      report_request startDate endDate dimensions metrics nextPageToken in
    (execute (requests w) body,
     {| requests := requests w ++ [body]; builds := builds w;
        sleeps := sleeps w; draws := draws w |}).

Definition random_random : M Q :=
  fun w =>
    (Ok (random (draws w)),
     {| requests := requests w; builds := builds w;
        sleeps := sleeps w; draws := S (draws w) |}).

Definition time_sleep (seconds : Q) : M unit :=
  fun w =>
    (Ok tt,
     {| requests := requests w; builds := builds w;
        sleeps := sleeps w ++ [seconds]; draws := draws w |}).

(** Lines 174-179: [for token in nextPageToken_ToList]. *)
Fixpoint fetch_pages (analytics : Analytics) (startDate endDate : string)
  (dimensions : list Dimension) (metrics : list Metric)
  (nextPageToken_ToList : list string) (completeData : list Py.dict)
  : M (list Py.dict) :=
  match nextPageToken_ToList with
  | [] => ret completeData
  | token :: rest =>
      response <- get_report analytics startDate endDate dimensions metrics token ;;
      match get_ga_data response with
      | Ok report_ToList =>
          fetch_pages analytics startDate endDate dimensions metrics rest
            (completeData ++ report_ToList)
      | Raise e => raise e
      end
  end.

(** Lines 109-184. *)
Definition get_response (analytics : Analytics) (response : Response)
  (startDate endDate : string) (dimensions : list Dimension)
  (metrics : list Metric) : M DataFrame :=
  match reports response with
  | [] => raise IndexError
  | report0 :: _ =>
      let report_data := data report0 in
      match get_ga_data response with
      | Raise e => raise e
      | Ok report_ToList =>
          match rowCount report_data with
          | None => raise TypeError
          | Some row_count =>
              let row_remaining := row_count - Z.of_nat (List.length report_ToList) in
              if sampled report_data then raise SampledDataError
              else
                let nextPageToken_ToList :=
                  map Py.str (offset_list row_count (nextPageToken report0)) in
                completeData <-
                  fetch_pages analytics startDate endDate dimensions metrics
                    nextPageToken_ToList [] ;;
                ret (strip_columns (pd_DataFrame completeData))
          end
      end
  end.

(** Line 253. *)
Definition retryable (reason : string) : bool :=
  existsb (String.eqb reason)
    ["userRateLimitExceeded"; "quotaExceeded"; "internalServerError";
     "backendError"].

(** Lines 245-250: the body of the [try]. *)
Definition attempt (startDate endDate : string)
  (dimensions : list Dimension) (metrics : list Metric) : M DataFrame :=
  analytics <- initialize_analyticsreporting ;;
  response <- get_report analytics startDate endDate dimensions metrics "0" ;;
  get_response analytics response startDate endDate dimensions metrics.

(** Line 254: [time.sleep((2**n) + random.random())]. *)
Definition backoff (n : nat) : M unit :=
  jitter <- random_random ;;
  time_sleep (inject_Z (2 ^ Z.of_nat n) + jitter)%Q.

(** Lines 243-257: [for n in range(0, 5)], over the values [n] still to
    come.  Falling off the loop, or leaving it by [break], returns [None]. *)
Fixpoint retry_loop (startDate endDate : string)
  (dimensions : list Dimension) (metrics : list Metric) (ns : list nat)
  : M (option DataFrame) :=
  match ns with
  | [] => ret None
  | n :: rest =>
      fun w =>
        match attempt startDate endDate dimensions metrics w with
        | (Ok df, w') => (Ok (Some df), w')
        | (Raise (HTTPError reason), w') =>
            if retryable reason
            then (_ <- backoff n ;;
                  retry_loop startDate endDate dimensions metrics rest) w'
            else (Ok None, w')
        | (Raise e, w') => (Raise e, w')
        end
  end.

Definition get_dataframes (startDate endDate : string)
  (dimensions : list Dimension) (metrics : list Metric)
  : M (option DataFrame) :=
  retry_loop startDate endDate dimensions metrics (seq 0 5).

(** *** Runs of the service and of the retry loop *)

(** The world after the requests [bodies] were sent. *)
Definition after_requests (bodies : list ReportRequest) (w : World) : World :=
  {| requests := requests w ++ bodies; builds := builds w;
     sleeps := sleeps w; draws := draws w |}.

(** The service's answers to the requests for [tokens], sent one after
    the other to a service that has received [history]. *)
Fixpoint answers (startDate endDate : string)
  (dimensions : list Dimension) (metrics : list Metric)
  (history : list ReportRequest) (tokens : list string)
  : list (result Response) :=
  match tokens with
  | [] => []
  | token :: rest =>
      let body := report_request startDate endDate dimensions metrics token in
      execute history body ::
      answers startDate endDate dimensions metrics (history ++ [body]) rest
  end.

(** An answer that is a page, and the rows extracted from it. *)
Definition page_of (answer : result Response) (page_rows : list Py.dict)
  : Prop :=
  exists response, answer = Ok response /\ get_ga_data response = Ok page_rows.

(** The durations slept by the backoffs for the attempts [ns], the first
    of which makes draw number [d]. *)
Fixpoint backoff_durations (ns : list nat) (d : nat) : list Q :=
  match ns with
  | [] => []
  | n :: rest =>
      (inject_Z (2 ^ Z.of_nat n) + random d)%Q :: backoff_durations rest (S d)
  end.

(** The attempts numbered [ns], made one after the other from [w], all
    fail with an [HTTPError] whose reason is one of the four of line 253;
    the result is the world after the backoff that follows the last of
    them. *)
Fixpoint fail_and_back_off (startDate endDate : string)
  (dimensions : list Dimension) (metrics : list Metric)
  (ns : list nat) (w : World) : option World :=
  match ns with
  | [] => Some w
  | n :: rest =>
      match attempt startDate endDate dimensions metrics w with
      | (Raise (HTTPError reason), w') =>
          if retryable reason
          then fail_and_back_off startDate endDate dimensions metrics rest
                 (snd (backoff n w'))
          else None
      | _ => None
      end
  end.

End Pipeline.

(** ** The catalog of dimensions and metrics:
       [load_dimensions_and_metrics], lines 41-52 *)

(** A document as [json.load] returns it: an object is the [dict] it
    built, in the order of the file. *)
#[warnings="-register-all"]
Inductive json : Type :=
| JNull
| JBool (b : bool)
| JNumber (q : Q)
| JString (s : string)
| JArray (items : list json)
| JObject (members : list (string * json)).

(** [d.get(key)] on the members of an object. *)
Fixpoint member (key : string) (members : list (string * json))
  : option json :=
  match members with
  | [] => None
  | (k, v) :: rest => if String.eqb k key then Some v else member key rest
  end.

(** [document[key]] for a string [key]: a [dict] without the key raises
    [KeyError]; a list, a string, a number, a boolean or [None] raises
    [TypeError]. *)
Definition KeyError : exn := OtherError "KeyError".

Definition subscript (document : json) (key : string) : result json :=
  match document with
  | JObject members =>
      match member key members with
      | Some v => Ok v
      | None => Raise KeyError
      end
  | _ => Raise TypeError
  end.

Section Catalog.

(** [json.load(open(file_path))]: the document of a file, or the
    exception that opening or parsing it raises. *)
Variable read_json : string -> result json.

(** Lines 41-52. *)
Definition load_dimensions_and_metrics (file_path datatype : string)
  : result (json * json) :=
  match read_json file_path with
  | Raise e => Raise e
  | Ok dimensions_and_metrics =>
      match subscript dimensions_and_metrics datatype with
      | Raise e => Raise e
      | Ok category =>
          match subscript category "dimensions" with
          | Raise e => Raise e
          | Ok dimensions =>
              match subscript dimensions_and_metrics datatype with
              | Raise e => Raise e
              | Ok category' =>
                  match subscript category' "metrics" with
                  | Raise e => Raise e
                  | Ok metrics => Ok (dimensions, metrics)
                  end
              end
          end
      end
  end.

End Catalog.

(** * Vocabulary of the properties *)

Local Open Scope list_scope.

(** The test of line 101. *)
Definition float_like (value : string) : bool :=
  Py.contains_char "," value || Py.contains_char "." value.

(** What [convert] stores, by the test of line 101. *)
Definition sniffed (value : string) (x : Py.value) : Prop :=
  if float_like value
  then exists f, Py.float value = Some f /\ x = Py.Float f
  else exists z, Py.int value = Some z /\ x = Py.Int z.

(** Where the value under a key of an extracted row comes from. *)
Definition entry_origin (header : ColumnHeader) (row : ReportRow)
  (key : string) (x : Py.value) : Prop :=
  (exists dimension,
      In (key, dimension) (combine (dimensionHeaders header) (dimensions row)) /\
      x = Py.Str dimension) \/
  (exists vs strings metricHeader value,
      In vs (metrics row) /\ values vs = Some strings /\
      In (metricHeader, value) (combine (metricHeaderEntries header) strings) /\
      name metricHeader = key /\ sniffed value x).

(** The keys assigned by the loop of lines 96-97. *)
Definition dimension_keys (header : ColumnHeader) (row : ReportRow)
  : list string :=
  map fst (combine (dimensionHeaders header) (dimensions row)).

(** The keys assigned by the loop of lines 100-104, for one date range. *)
Definition pair_keys (pairs : list (MetricHeaderEntry * string)) : list string :=
  map (fun p => name (fst p)) pairs.

(** The metric names one date range is paired with. *)
Definition metric_keys (metricHeaders : list MetricHeaderEntry)
  (vs : DateRangeValues) : list string :=
  match values vs with
  | Some strings => pair_keys (combine metricHeaders strings)
  | None => []
  end.

(** The keys assigned while a row is built, in the order of assignment. *)
Definition keys_written (header : ColumnHeader) (row : ReportRow)
  : list string :=
  dimension_keys header row ++
  flat_map (metric_keys (metricHeaderEntries header)) (metrics row).

(** A row cut to its headers: the dimension values and the values of each
    date range beyond the number of headers are dropped. *)
Definition clip_values (n : nat) (vs : DateRangeValues) : DateRangeValues :=
  {| values := option_map (firstn n) (values vs) |}.

Definition clip_row (header : ColumnHeader) (row : ReportRow) : ReportRow :=
  {| dimensions :=
       firstn (List.length (dimensionHeaders header)) (dimensions row);
     metrics :=
       map (clip_values (List.length (metricHeaderEntries header)))
           (metrics row) |}.

(** C9, as claimed: a row with several date ranges holds what the row with
    only the last of them holds. *)
Definition keeps_only_last_range : Prop :=
  forall header ds earlier final dicts,
    earlier <> [] ->
    row_dict header {| dimensions := ds; metrics := earlier ++ [final] |}
      = Ok dicts ->
    exists dicts1,
      row_dict header {| dimensions := ds; metrics := [final] |} = Ok dicts1 /\
      forall key, Py.get key dicts = Py.get key dicts1.

(** The offsets of [k] pages. *)
Definition page_offsets (k : nat) : list Z :=
  map (fun i => 100000 * Z.of_nat i) (seq 0 k).

(** Only the list of requests changed, and it grew. *)
Definition only_requests (w w' : World) : Prop :=
  builds w' = builds w /\ sleeps w' = sleeps w /\ draws w' = draws w /\
  exists bodies, requests w' = requests w ++ bodies.

(** C2, as claimed: a first page with a sampling indicator makes
    [get_response] raise [SampledDataError]. *)
Definition sampled_raises_SampledDataError : Prop :=
  forall V ex response report0 rest sd ed dm ms w,
    reports response = report0 :: rest ->
    sampled (data report0) = true ->
    fst (get_response V ex analyticsreporting_v4 response sd ed dm ms w)
      = Raise SampledDataError.

(** C3, as claimed: when the first page reports at most 100000 rows, the
    whole query sends one request. *)
Definition small_query_sends_one_request : Prop :=
  forall V ex rnd sd ed dm ms w response report0 rest row_count,
    ex (requests w) (report_request V sd ed dm ms "0") = Ok response ->
    reports response = report0 :: rest ->
    rowCount (data report0) = Some row_count ->
    row_count <= 100000 ->
    List.length (requests (snd (get_dataframes V ex rnd sd ed dm ms w))) =
    S (List.length (requests w)).

(** C5, as claimed: an error whose reason is not one of the four is
    raised by [get_dataframes]. *)
Definition other_errors_propagate : Prop :=
  forall V ex rnd sd ed dm ms w reason,
    retryable reason = false ->
    fst (attempt V ex sd ed dm ms w) = Raise (HTTPError reason) ->
    fst (get_dataframes V ex rnd sd ed dm ms w) = Raise (HTTPError reason).

(** The rows of a page, each with the header of its report, in the order
    [get_ga_data] visits them. *)
Definition all_rows (response : Response) : list (ColumnHeader * ReportRow) :=
  flat_map (fun report => map (pair (columnHeader report)) (rows (data report)))
           (reports response).

(** The mappings of the rows [hrs], one after the other, up to the first
    that raises. *)
Fixpoint extract_all (hrs : list (ColumnHeader * ReportRow))
  : result (list Py.dict) :=
  match hrs with
  | [] => Ok []
  | (header, row) :: rest =>
      match row_dict header row with
      | Ok dicts =>
          match extract_all rest with
          | Ok ds => Ok (dicts :: ds)
          | Raise e => Raise e
          end
      | Raise e => Raise e
      end
  end.

(** A date range whose values are all there and convert. *)
Definition range_converts (metricHeaders : list MetricHeaderEntry)
  (vs : DateRangeValues) : Prop :=
  exists strings, values vs = Some strings /\
    forall mh v, In (mh, v) (combine metricHeaders strings) ->
                 is_ok (convert v) = true.

(** The value of the last assignment to [key] in a list of assignments. *)
Fixpoint last_assigned {A : Type} (key : string) (l : list (string * A))
  : option A :=
  match l with
  | [] => None
  | (k, v) :: rest =>
      match last_assigned key rest with
      | Some x => Some x
      | None => if String.eqb k key then Some v else None
      end
  end.

(** The assignments [dicts[...] = ...] of lines 97, 102 and 104 for one
    row, in the order the loops make them, each with the value assigned or
    the exception its conversion raises. *)
Definition metric_writes (metricHeaders : list MetricHeaderEntry)
  (vs : DateRangeValues) : list (string * result Py.value) :=
  match values vs with
  | Some strings =>
      map (fun p => (name (fst p), convert (snd p)))
          (combine metricHeaders strings)
  | None => []
  end.

Definition row_writes (header : ColumnHeader) (row : ReportRow)
  : list (string * result Py.value) :=
  map (fun p => (fst p, Ok (Py.Str (snd p))))
      (combine (dimensionHeaders header) (dimensions row)) ++
  flat_map (metric_writes (metricHeaderEntries header)) (metrics row).

(** An answer that gives no rows: the service raises, or the page it
    returns does not extract. *)
Definition page_fails (answer : result Response) (e : exn) : Prop :=
  answer = Raise e \/
  exists response, answer = Ok response /\ get_ga_data response = Raise e.

(** A page token that is the decimal string of a multiple of the page
    size. *)
Definition offset_token (token : string) : Prop :=
  exists i : nat, token = Py.str (100000 * Z.of_nat i).

(** The sum of a list of durations. *)
Definition Qsum (l : list Q) : Q := fold_right Qplus 0%Q l.

(** The world after the service object was built once more. *)
Definition after_build (w : World) : World :=
  {| requests := requests w; builds := S (builds w);
     sleeps := sleeps w; draws := draws w |}.

(** The digits of a decimal numeral as the characters [str] writes. *)
Definition numeral (d : Decimal.uint) : list ascii :=
  list_ascii_of_string (NilEmpty.string_of_uint d).

(** The number [digits_tail] makes of the numeral [d] after the digits
    that gave [acc]. *)
Fixpoint numeral_value (d : Decimal.uint) (acc : N) : N :=
  match d with
  | Decimal.Nil => acc
  | Decimal.D0 l => numeral_value l (10 * acc + 0)
  | Decimal.D1 l => numeral_value l (10 * acc + 1)
  | Decimal.D2 l => numeral_value l (10 * acc + 2)
  | Decimal.D3 l => numeral_value l (10 * acc + 3)
  | Decimal.D4 l => numeral_value l (10 * acc + 4)
  | Decimal.D5 l => numeral_value l (10 * acc + 5)
  | Decimal.D6 l => numeral_value l (10 * acc + 6)
  | Decimal.D7 l => numeral_value l (10 * acc + 7)
  | Decimal.D8 l => numeral_value l (10 * acc + 8)
  | Decimal.D9 l => numeral_value l (10 * acc + 9)
  end%N.

(** A character that [str] writes for an integer: a digit or the minus
    sign. *)
Definition numeral_char (c : ascii) : Prop :=
  (exists x, Py.digit c = Some x) \/ c = "-"%char.

(** [document[key] = value] on the members of an object. *)
Fixpoint set_member (key : string) (value : json)
  (members : list (string * json)) : list (string * json) :=
  match members with
  | [] => [(key, value)]
  | (k, v) :: rest =>
      if String.eqb k key then (key, value) :: rest
      else (k, v) :: set_member key value rest
  end.

(** A cell that holds a value. *)
Definition filled (cell : option Py.value) : Prop := cell <> None.

(** * Sample pages, rows and services *)

(** A header with one dimension and two metrics. *)
Definition two_metrics : ColumnHeader :=
  {| dimensionHeaders := ["ga:date"];
     metricHeaderEntries := [ {| name := "ga:sessions" |}; {| name := "ga:users" |} ] |}.

(** A row with two date ranges, the second shorter than the first. *)
Definition ragged_row : ReportRow :=
  {| dimensions := ["20200426"];
     metrics := [ {| values := Some ["1"; "2"] |} ] ++ [ {| values := Some ["3"] |} ] |}.

(** A page with one row, one dimension and one metric. *)
Definition report_page (row_count : option Z) (token : option string)
  (samples : list string) (value : string) : Response :=
  {| reports :=
       [ {| columnHeader :=
              {| dimensionHeaders := ["ga:date"];
                 metricHeaderEntries := [ {| name := "ga:sessions" |} ] |};
            data :=
              {| rows := [ {| dimensions := ["20200426"];
                              metrics := [ {| values := Some [value] |} ] |} ];
                 rowCount := row_count;
                 samplesReadCounts := samples;
                 samplingSpaceSizes := [] |};
            nextPageToken := token |} ] |}.

(** The only page of a report of one row, whose metric value is [value]. *)
Definition one_metric_page (value : string) : Response :=
  report_page (Some 1) None [] value.

(** The first page of a report of 250000 rows. *)
Definition big_page : Response :=
  report_page (Some 250000) (Some "100000") [] "1234".

(** The only page of a report of one row. *)
Definition small_page : Response := one_metric_page "1234".

(** Sampled pages: one that extracts, one whose metric is not a number. *)
Definition sampled_page : Response :=
  report_page (Some 1) None ["499630"] "1234".

Definition sampled_page_NA : Response :=
  report_page (Some 1) None ["499630"] "N/A".

(** The rows of [big_page], [small_page] and [sampled_page]. *)
Definition one_row : list Py.dict :=
  [ [("ga:date", Py.Str "20200426"); ("ga:sessions", Py.Int 1234)] ].

(** A page with two dimensions, an integer metric and a float metric. *)
Definition mixed_page : Response :=
  {| reports :=
       [ {| columnHeader :=
              {| dimensionHeaders := ["ga:date"; "ga:channelGrouping"];
                 metricHeaderEntries :=
                   [ {| name := "ga:sessions" |}; {| name := "ga:bounceRate" |} ] |};
            data :=
              {| rows := [ {| dimensions := ["20200426"; "Direct"];
                              metrics := [ {| values := Some ["1234"; "12.5"] |} ] |} ];
                 rowCount := Some 1;
                 samplesReadCounts := [];
                 samplingSpaceSizes := [] |};
            nextPageToken := None |} ] |}.

Definition mixed_rows : list Py.dict :=
  [ [("ga:date", Py.Str "20200426"); ("ga:channelGrouping", Py.Str "Direct");
     ("ga:sessions", Py.Int 1234);
     ("ga:bounceRate", Py.Float (Py.FDec false 125 (-1)))] ].

(** A row with more values than headers. *)
Definition surplus_row : ReportRow :=
  {| dimensions := ["20200426"; "Direct"; "extra"];
     metrics := [ {| values := Some ["3"; "4"; "not a number"] |} ] |}.

(** A service that gives the same answer to every request. *)
Definition always (answer : result Response)
  : list ReportRequest -> ReportRequest -> result Response :=
  fun _ _ => answer.

(** A service that fails its first [failures] requests with an
    [HTTPError] of the given reason, then answers [response]. *)
Definition flaky (failures : nat) (reason : string) (response : Response)
  : list ReportRequest -> ReportRequest -> result Response :=
  fun history _ =>
    if (List.length history <? failures)%nat
    then Raise (HTTPError reason)
    else Ok response.

(** A random source that always draws one half. *)
Definition one_half : nat -> Q := fun _ => (1 # 2)%Q.

(** A page of three rows, the second with a metric that is no number. *)
Definition three_row_page : Response :=
  {| reports :=
       [ {| columnHeader := two_metrics;
            data :=
              {| rows :=
                   [ {| dimensions := ["20200424"];
                        metrics := [ {| values := Some ["1"; "2"] |} ] |};
                     {| dimensions := ["20200425"];
                        metrics := [ {| values := Some ["N/A"; "2"] |} ] |};
                     {| dimensions := ["20200426"];
                        metrics := [ {| values := Some ["5"; "6"] |} ] |} ];
                 rowCount := Some 3;
                 samplesReadCounts := [];
                 samplingSpaceSizes := [] |};
            nextPageToken := None |} ] |}.

(** A row whose second date range has no values. *)
Definition row_without_values : ReportRow :=
  {| dimensions := ["20200426"];
     metrics := [ {| values := Some ["1"; "2"] |}; {| values := None |} ] |}.

(** A first page with the metadata of [big_page] and another row. *)
Definition big_page_other_row : Response :=
  report_page (Some 250000) (Some "anything") [] "7".

(** A service that answers its first [good] requests with [response] and
    raises [e] from then on. *)
Definition breaks_after (good : nat) (response : Response) (e : exn)
  : list ReportRequest -> ReportRequest -> result Response :=
  fun history _ =>
    if (List.length history <? good)%nat then Ok response else Raise e.

(** A response without reports. *)
Definition empty_response : Response := {| reports := [] |}.

(** A catalog with one category. *)
Definition sample_catalog : json :=
  JObject
    [ ("traffic",
       JObject
         [ ("dimensions", JArray [JObject [("name", JString "ga:date")]]);
           ("metrics", JArray [JObject [("expression", JString "ga:sessions")]]) ]) ].

(** * Properties *)

(** ** The built-ins on sample literals *)

Example int_1234 : Py.int "1234" = Some 1234. Proof. reflexivity. Qed.
Example int_neg : Py.int " -1_000 " = Some (-1000). Proof. reflexivity. Qed.
Example int_empty : Py.int "" = None. Proof. reflexivity. Qed.
Example int_na : Py.int "N/A" = None. Proof. reflexivity. Qed.
Example int_exp : Py.int "1e5" = None. Proof. reflexivity. Qed.
Example float_12_5 : Py.float "12.5" = Some (Py.FDec false 125 (-1)). Proof. reflexivity. Qed.
Example float_comma : Py.float "1,5" = None. Proof. reflexivity. Qed.
Example float_dot : Py.float "." = None. Proof. reflexivity. Qed.
Example float_lead : Py.float ".5e+2" = Some (Py.FDec false 5 1). Proof. reflexivity. Qed.
Example float_trail : Py.float "5." = Some (Py.FDec false 5 0). Proof. reflexivity. Qed.
Example float_inf : Py.float "-Inf" = Some (Py.FInf true). Proof. reflexivity. Qed.
Example str_0 : Py.str 0 = "0". Proof. reflexivity. Qed.
Example str_100000 : Py.str 100000 = "100000". Proof. reflexivity. Qed.
Example replace_ga : Py.replace "ga:" "" "ga:sessions" = "sessions". Proof. reflexivity. Qed.
Example replace_twice : Py.replace "ga:" "" "gga:a:" = "ga:". Proof. reflexivity. Qed.

(** ** A comma is in no float literal *)

Lemma lstrip_keeps l c :
  In c l -> Py.is_space c = false -> In c (Py.lstrip l).
Proof.
  induction l as [|a l IH]; simpl; [tauto|].
  intros [->|Hin] Hs.
  - rewrite Hs. now left.
  - destruct (Py.is_space a); [auto|now right].
Qed.

Lemma strip_keeps l c :
  In c l -> Py.is_space c = false -> In c (Py.strip l).
Proof.
  intros Hin Hs. unfold Py.strip.
  rewrite <- in_rev. apply lstrip_keeps; [|assumption].
  rewrite <- in_rev. now apply lstrip_keeps.
Qed.

Lemma sign_keeps l :
  In ","%char l -> In ","%char (snd (Py.sign l)).
Proof.
  destruct l as [|a l]; simpl; [tauto|].
  intros [->|Hin]; [simpl; now left|].
  destruct (Ascii.eqb a "-"); [assumption|].
  destruct (Ascii.eqb a "+"); [assumption|now right].
Qed.

Lemma digit_not_comma : Py.digit ","%char = None.
Proof. reflexivity. Qed.

Lemma digits_tail_keeps s :
  (forall acc cnt, In ","%char s -> In ","%char (snd (Py.digits_tail s acc cnt))) /\
  (forall c acc cnt, In ","%char (c :: s) ->
                     In ","%char (snd (Py.digits_tail (c :: s) acc cnt))).
Proof.
  induction s as [|a s [IH1 IH2]].
  - split; [intros ? ? []|].
    intros c acc cnt [->|[]]. simpl. now left.
  - split; [apply IH2|].
    intros c acc cnt Hin.
    cbn [Py.digits_tail].
    destruct (Py.digit c) as [d|] eqn:Ed.
    + apply IH2. destruct Hin as [->|Hin]; [|assumption].
      rewrite digit_not_comma in Ed. discriminate.
    + destruct (Ascii.eqb c "_") eqn:Eu; [|exact Hin].
      destruct (Py.digit a) as [d|] eqn:Ea; [|exact Hin].
      apply IH1.
      destruct Hin as [->|[->|Hin]]; try assumption; discriminate.
Qed.

Lemma digitpart_keeps s n cnt rest :
  Py.digitpart s = Some (n, cnt, rest) -> In ","%char s -> In ","%char rest.
Proof.
  destruct s as [|c s]; simpl; [discriminate|].
  destruct (Py.digit c) as [d|] eqn:Ed; [|discriminate].
  intros H [->|Hin].
  - rewrite digit_not_comma in Ed. discriminate.
  - apply (proj1 (digits_tail_keeps s) d 1%nat) in Hin.
    injection H as H. rewrite H in Hin. exact Hin.
Qed.

Lemma exponent_keeps s e rest :
  Py.exponent s = Some (e, rest) -> In ","%char s -> In ","%char rest.
Proof.
  destruct s as [|c s]; simpl; [intros _ []|].
  destruct (Py.is_e c) eqn:Ee.
  - destruct (Py.sign s) as [neg body] eqn:Es.
    destruct (Py.digitpart body) as [[[n cnt] rest']|] eqn:Ed; [|discriminate].
    intros H Hin. injection H as _ <-.
    apply (digitpart_keeps _ _ _ _ Ed).
    destruct Hin as [->|Hin]; [discriminate|].
    apply sign_keeps in Hin. now rewrite Es in Hin.
  - intros H Hin. now injection H as _ <-.
Qed.

Lemma floatnumber_rejects_comma neg s :
  In ","%char s -> Py.floatnumber neg s = None.
Proof.
  intros Hin. unfold Py.floatnumber.
  assert (Hfin : forall m frac rest,
             In ","%char rest ->
             match Py.exponent rest with
             | Some (e, []) => Some (Py.FDec neg m (e - Z.of_nat frac))
             | _ => None
             end = None).
  { intros m frac rest Hr.
    destruct (Py.exponent rest) as [[e rest']|] eqn:Ee; [|reflexivity].
    apply (exponent_keeps _ _ _ Ee) in Hr.
    destruct rest'; [contradiction|reflexivity]. }
  destruct (Py.digitpart s) as [[[i cnt] rest]|] eqn:Ed.
  - apply (digitpart_keeps _ _ _ _ Ed) in Hin.
    destruct rest as [|c rest1]; [contradiction|].
    destruct (Ascii.eqb c ".") eqn:Ec.
    + assert (Hin1 : In ","%char rest1).
      { destruct Hin as [->|Hin]; [discriminate|assumption]. }
      destruct (Py.digitpart rest1) as [x|] eqn:Ed1.
      * destruct (Py.digits_tail rest1 i 0) as [[m c2] rest2] eqn:Et.
        apply Hfin.
        apply (proj1 (digits_tail_keeps rest1) i 0%nat) in Hin1.
        now rewrite Et in Hin1.
      * now apply Hfin.
    + now apply Hfin.
  - destruct s as [|c rest1]; [reflexivity|].
    destruct (Ascii.eqb c ".") eqn:Ec; [|reflexivity].
    destruct (Py.digitpart rest1) as [[[f cnt] rest2]|] eqn:Ed1; [|reflexivity].
    apply Hfin. apply (digitpart_keeps _ _ _ _ Ed1).
    destruct Hin as [->|Hin]; [discriminate|assumption].
Qed.

Lemma contains_char_In c s :
  Py.contains_char c s = true -> In c (list_ascii_of_string s).
Proof.
  induction s as [|a s IH]; simpl; [discriminate|].
  intros H. apply orb_true_iff in H. destruct H as [H|H].
  - apply Ascii.eqb_eq in H. now left.
  - right. auto.
Qed.

Lemma float_rejects_comma s :
  Py.contains_char "," s = true -> Py.float s = None.
Proof.
  intros H. apply contains_char_In in H.
  pose proof (strip_keeps _ _ H eq_refl) as Hs.
  apply sign_keeps in Hs. unfold Py.float.
  destruct (Py.sign (Py.strip (list_ascii_of_string s))) as [neg body].
  simpl in Hs.
  assert (Hw : forall word,
             string_of_list_ascii (map Py.lower body) = word ->
             Py.contains_char "," word = false -> False).
  { intros word <- Hno.
    assert (Hin : In ","%char (map Py.lower body)) by (apply (in_map Py.lower _ _ Hs)).
    revert Hno Hin. generalize (map Py.lower body). intros l.
    induction l as [|a l IH]; simpl; [tauto|].
    intros Hno [->|Hin]; [discriminate|].
    apply orb_false_iff in Hno. tauto. }
  destruct (String.eqb (string_of_list_ascii (map Py.lower body)) "inf") eqn:E1.
  { apply String.eqb_eq in E1. destruct (Hw _ E1 eq_refl). }
  destruct (String.eqb (string_of_list_ascii (map Py.lower body)) "infinity") eqn:E2.
  { apply String.eqb_eq in E2. destruct (Hw _ E2 eq_refl). }
  destruct (String.eqb (string_of_list_ascii (map Py.lower body)) "nan") eqn:E3.
  { apply String.eqb_eq in E3. destruct (Hw _ E3 eq_refl). }
  simpl. now apply floatnumber_rejects_comma.
Qed.

(** ** Dictionaries *)

Lemma get_setitem (k k' : string) (v : Py.value) (d : Py.dict) :
  Py.get k (Py.setitem k' v d) =
  if String.eqb k' k then Some v else Py.get k d.
Proof.
  induction d as [|[k0 v0] d IH]; simpl.
  - reflexivity.
  - destruct (String.eqb k0 k') eqn:E0; simpl.
    + apply String.eqb_eq in E0; subst k0.
      destruct (String.eqb k' k); reflexivity.
    + destruct (String.eqb k0 k) eqn:E1.
      * apply String.eqb_eq in E1; subst k0.
        rewrite String.eqb_sym, E0. reflexivity.
      * exact IH.
Qed.

Lemma get_setitem_same (k : string) (v : Py.value) (d : Py.dict) :
  Py.get k (Py.setitem k v d) = Some v.
Proof. rewrite get_setitem, String.eqb_refl. reflexivity. Qed.

Lemma get_setitem_other (k k' : string) (v : Py.value) (d : Py.dict) :
  k' <> k -> Py.get k (Py.setitem k' v d) = Py.get k d.
Proof.
  intros H. rewrite get_setitem.
  destruct (String.eqb k' k) eqn:E; [apply String.eqb_eq in E; contradiction | reflexivity].
Qed.

(** ** Row extraction *)

Lemma convert_sniffed (value : string) (x : Py.value) :
  convert value = Ok x -> sniffed value x.
Proof.
  unfold convert, sniffed, float_like.
  destruct (Py.contains_char "," value || Py.contains_char "." value).
  - destruct (Py.float value) as [f|]; [|discriminate].
    intros H; injection H as <-. eauto.
  - destruct (Py.int value) as [z|]; [|discriminate].
    intros H; injection H as <-. eauto.
Qed.

Lemma fill_dimensions_get pairs : forall d key x,
  Py.get key (fill_dimensions pairs d) = Some x ->
  (exists dimension, In (key, dimension) pairs /\ x = Py.Str dimension) \/
  Py.get key d = Some x.
Proof.
  induction pairs as [|[h s] pairs IH]; intros d key x H; simpl in *.
  - now right.
  - destruct (IH _ _ _ H) as [(s' & Hin & ->)|H'].
    + left. eauto.
    + rewrite get_setitem in H'.
      destruct (String.eqb h key) eqn:E.
      * apply String.eqb_eq in E; subst h. injection H' as <-. left. eauto.
      * now right.
Qed.

Lemma fill_metrics_get pairs : forall d d' key x,
  fill_metrics pairs d = Ok d' ->
  Py.get key d' = Some x ->
  (exists mh value, In (mh, value) pairs /\ name mh = key /\ convert value = Ok x) \/
  Py.get key d = Some x.
Proof.
  induction pairs as [|[mh v] pairs IH]; intros d d' key x Hf Hg; simpl in *.
  - injection Hf as <-. now right.
  - destruct (convert v) as [y|e] eqn:Ec; [|discriminate].
    destruct (IH _ _ _ _ Hf Hg) as [(mh' & v' & Hin & Hn & Hc)|H'].
    + left. exists mh', v'. auto.
    + rewrite get_setitem in H'.
      destruct (String.eqb (name mh) key) eqn:E.
      * apply String.eqb_eq in E. injection H' as <-. left. exists mh, v. auto.
      * now right.
Qed.

Lemma fill_date_ranges_get mhs sets : forall d d' key x,
  fill_date_ranges mhs sets d = Ok d' ->
  Py.get key d' = Some x ->
  (exists vs strings mh value,
      In vs sets /\ values vs = Some strings /\
      In (mh, value) (combine mhs strings) /\ name mh = key /\
      convert value = Ok x) \/
  Py.get key d = Some x.
Proof.
  induction sets as [|vs sets IH]; intros d d' key x Hf Hg; simpl in *.
  - injection Hf as <-. now right.
  - destruct (values vs) as [strings|] eqn:Ev; [|discriminate].
    destruct (fill_metrics (combine mhs strings) d) as [d1|e] eqn:Em; [|discriminate].
    destruct (IH _ _ _ _ Hf Hg) as [(vs' & st' & mh & v & Hin & Hv & Hp & Hn & Hc)|H'].
    + left. exists vs', st', mh, v. auto.
    + destruct (fill_metrics_get _ _ _ _ _ Em H') as [(mh & v & Hp & Hn & Hc)|H''].
      * left. exists vs, strings, mh, v. auto.
      * now right.
Qed.

Lemma row_dict_origin header row dicts key x :
  row_dict header row = Ok dicts ->
  Py.get key dicts = Some x ->
  entry_origin header row key x.
Proof.
  unfold row_dict, entry_origin. intros Hr Hg.
  destruct (fill_date_ranges_get _ _ _ _ _ _ Hr Hg)
    as [(vs & st & mh & v & Hin & Hv & Hp & Hn & Hc)|H'].
  - right. exists vs, st, mh, v. repeat split; auto using convert_sniffed.
  - destruct (fill_dimensions_get _ _ _ _ H') as [?|H'']; [now left|discriminate].
Qed.

Lemma rows_loop_spec header rs : forall acc out,
  rows_loop header rs acc = Ok out ->
  exists ds, out = acc ++ ds /\
             Forall2 (fun row d => row_dict header row = Ok d) rs ds.
Proof.
  induction rs as [|row rs IH]; intros acc out H; simpl in *.
  - injection H as <-. exists []. rewrite app_nil_r. auto.
  - destruct (row_dict header row) as [d|e] eqn:Er; [|discriminate].
    destruct (IH _ _ H) as (ds & -> & HF).
    exists (d :: ds). rewrite <- app_assoc. auto.
Qed.

Lemma reports_loop_spec rps : forall acc out,
  reports_loop rps acc = Ok out ->
  exists dss, out = acc ++ List.concat dss /\
    Forall2 (fun report ds =>
               Forall2 (fun row d => row_dict (columnHeader report) row = Ok d)
                       (rows (data report)) ds) rps dss.
Proof.
  induction rps as [|rp rps IH]; intros acc out H; simpl in *.
  - injection H as <-. exists []. simpl. rewrite app_nil_r. auto.
  - destruct (rows_loop (columnHeader rp) (rows (data rp)) acc) as [acc'|e] eqn:Er;
      [|discriminate].
    destruct (rows_loop_spec _ _ _ _ Er) as (ds & -> & HF).
    destruct (IH _ _ H) as (dss & -> & HFF).
    exists (ds :: dss). simpl. rewrite <- app_assoc. auto.
Qed.

Lemma Forall2_In_r {A B} (R : A -> B -> Prop) l l' b :
  Forall2 R l l' -> In b l' -> exists a, In a l /\ R a b.
Proof.
  induction 1 as [|a0 b0 l l' HR HF IH]; simpl; [tauto|].
  intros [<-|Hin]; [eauto|].
  destruct (IH Hin) as (a & ? & ?). eauto.
Qed.

(** Every extracted row is the mapping of one row of one report. *)
Lemma get_ga_data_rows response report_ToList dicts :
  get_ga_data response = Ok report_ToList ->
  In dicts report_ToList ->
  exists report row,
    In report (reports response) /\ In row (rows (data report)) /\
    row_dict (columnHeader report) row = Ok dicts.
Proof.
  unfold get_ga_data. intros H Hin.
  destruct (reports_loop_spec _ _ _ H) as (dss & -> & HFF).
  simpl in Hin. apply in_concat in Hin. destruct Hin as (ds & Hds & Hd).
  destruct (Forall2_In_r _ _ _ _ HFF Hds) as (report & Hrep & HF).
  destruct (Forall2_In_r _ _ _ _ HF Hd) as (row & Hrow & Hr).
  eauto.
Qed.

(** *** Which keys a loop writes, and what it leaves alone *)

Lemma fill_dimensions_keep pairs : forall d key,
  ~ In key (map fst pairs) ->
  Py.get key (fill_dimensions pairs d) = Py.get key d.
Proof.
  induction pairs as [|[h s] pairs IH]; intros d key H; simpl in *.
  - reflexivity.
  - rewrite IH by tauto. apply get_setitem_other. tauto.
Qed.

Lemma fill_dimensions_stored pairs : forall d h s,
  NoDup (map fst pairs) -> In (h, s) pairs ->
  Py.get h (fill_dimensions pairs d) = Some (Py.Str s).
Proof.
  induction pairs as [|[h0 s0] pairs IH]; intros d h s ND Hin; simpl in *.
  - contradiction.
  - inversion ND as [|? ? Hnot ND']; subst.
    destruct Hin as [E|Hin].
    + injection E as -> ->.
      rewrite fill_dimensions_keep by assumption. apply get_setitem_same.
    + now apply IH.
Qed.

Lemma fill_metrics_keep pairs : forall d d' key,
  fill_metrics pairs d = Ok d' ->
  ~ In key (pair_keys pairs) ->
  Py.get key d' = Py.get key d.
Proof.
  induction pairs as [|[mh v] pairs IH]; intros d d' key Hf H; simpl in *.
  - now injection Hf as <-.
  - destruct (convert v) as [y|e]; [|discriminate].
    rewrite (IH _ _ _ Hf) by tauto. apply get_setitem_other. tauto.
Qed.

Lemma fill_metrics_stored pairs : forall d d' mh v,
  fill_metrics pairs d = Ok d' ->
  NoDup (pair_keys pairs) -> In (mh, v) pairs ->
  exists x, convert v = Ok x /\ Py.get (name mh) d' = Some x.
Proof.
  induction pairs as [|[mh0 v0] pairs IH]; intros d d' mh v Hf ND Hin; simpl in *.
  - contradiction.
  - inversion ND as [|? ? Hnot ND']; subst.
    destruct (convert v0) as [y|e] eqn:Ec; [|discriminate].
    destruct Hin as [E|Hin].
    + injection E as -> ->. exists y. split; [assumption|].
      rewrite (fill_metrics_keep _ _ _ _ Hf) by assumption.
      apply get_setitem_same.
    + eapply IH; eauto.
Qed.

(** Whether [fill_metrics] raises depends on the value strings alone. *)
Lemma fill_metrics_ok_iff pairs : forall d,
  is_ok (fill_metrics pairs d) = true <->
  (forall mh v, In (mh, v) pairs -> is_ok (convert v) = true).
Proof.
  induction pairs as [|[mh v] pairs IH]; intros d; simpl.
  - split; [intros _ ? ? []|reflexivity].
  - destruct (convert v) as [y|e] eqn:Ec; simpl.
    + rewrite IH. split.
      * intros H mh' v' [E|Hin]; [injection E as <- <-; now rewrite Ec | eauto].
      * intros H mh' v' Hin. eauto.
    + split; [discriminate|].
      intros H. specialize (H mh v (or_introl eq_refl)).
      rewrite Ec in H. discriminate.
Qed.

(** Under a key the loop writes, the value does not depend on the mapping
    it started from. *)
Lemma fill_metrics_written pairs : forall d d' e e' key,
  fill_metrics pairs d = Ok d' ->
  fill_metrics pairs e = Ok e' ->
  In key (pair_keys pairs) ->
  Py.get key d' = Py.get key e'.
Proof.
  induction pairs as [|[mh v] pairs IH]; intros d d' e e' key Hd He Hin; simpl in *.
  - contradiction.
  - destruct (convert v) as [y|ex]; [|discriminate].
    destruct (in_dec string_dec key (pair_keys pairs)) as [Hk|Hk].
    + eapply IH; eauto.
    + destruct Hin as [<-|Hin]; [|contradiction].
      rewrite (fill_metrics_keep _ _ _ _ Hd Hk), (fill_metrics_keep _ _ _ _ He Hk).
      now rewrite !get_setitem_same.
Qed.

Lemma fill_date_ranges_keep mhs sets : forall d d' key,
  fill_date_ranges mhs sets d = Ok d' ->
  ~ In key (flat_map (metric_keys mhs) sets) ->
  Py.get key d' = Py.get key d.
Proof.
  induction sets as [|vs sets IH]; intros d d' key Hf H; simpl in *.
  - now injection Hf as <-.
  - unfold metric_keys in H at 1.
    destruct (values vs) as [strings|]; [|discriminate].
    destruct (fill_metrics (combine mhs strings) d) as [d1|e] eqn:Em; [|discriminate].
    rewrite in_app_iff in H.
    rewrite (IH _ _ _ Hf) by tauto.
    eapply fill_metrics_keep; eauto.
Qed.

Lemma fill_date_ranges_app mhs sets1 sets2 : forall d,
  fill_date_ranges mhs (sets1 ++ sets2) d =
  match fill_date_ranges mhs sets1 d with
  | Ok d1 => fill_date_ranges mhs sets2 d1
  | Raise e => Raise e
  end.
Proof.
  induction sets1 as [|vs sets1 IH]; intros d; simpl.
  - reflexivity.
  - destruct (values vs) as [strings|]; [|reflexivity].
    destruct (fill_metrics (combine mhs strings) d); [apply IH|reflexivity].
Qed.

Lemma fill_date_ranges_ok_iff mhs sets : forall d,
  is_ok (fill_date_ranges mhs sets d) = true <->
  (forall vs, In vs sets ->
     exists strings, values vs = Some strings /\
       forall mh v, In (mh, v) (combine mhs strings) -> is_ok (convert v) = true).
Proof.
  induction sets as [|vs sets IH]; intros d; simpl.
  - split; [intros _ ? []|reflexivity].
  - destruct (values vs) as [strings|] eqn:Ev.
    + destruct (fill_metrics (combine mhs strings) d) as [d1|e] eqn:Em.
      * rewrite IH. split.
        -- intros H vs' [<-|Hin]; [|auto].
           exists strings. split; [assumption|].
           apply (fill_metrics_ok_iff _ d). now rewrite Em.
        -- intros H vs' Hin. auto.
      * split; [discriminate|].
        intros H. destruct (H vs (or_introl eq_refl)) as (st & Est & Hc).
        rewrite Ev in Est. injection Est as <-.
        apply (fill_metrics_ok_iff _ d) in Hc. rewrite Em in Hc. discriminate.
    + split; [discriminate|].
      intros H. destruct (H vs (or_introl eq_refl)) as (st & Est & _).
      rewrite Ev in Est. discriminate.
Qed.

Lemma NoDup_app_disjoint {A} (l1 l2 : list A) :
  NoDup (l1 ++ l2) -> forall a, In a l1 -> ~ In a l2.
Proof.
  induction l1 as [|a1 l1 IH]; simpl; intros ND a Hin; [contradiction|].
  inversion ND as [|? ? Hnot ND']; subst.
  destruct Hin as [<-|Hin].
  - intros H2. apply Hnot, in_or_app. now right.
  - now apply IH.
Qed.

Lemma fill_date_ranges_stored mhs sets : forall d d' vs strings mh v,
  fill_date_ranges mhs sets d = Ok d' ->
  NoDup (flat_map (metric_keys mhs) sets) ->
  In vs sets -> values vs = Some strings ->
  In (mh, v) (combine mhs strings) ->
  exists x, convert v = Ok x /\ Py.get (name mh) d' = Some x.
Proof.
  induction sets as [|vs0 sets IH];
    intros d d' vs strings mh v Hf ND Hin Hv Hp; simpl in *.
  - contradiction.
  - destruct (values vs0) as [strings0|] eqn:Ev0; [|discriminate].
    destruct (fill_metrics (combine mhs strings0) d) as [d1|e] eqn:Em; [|discriminate].
    destruct Hin as [->|Hin].
    + rewrite Hv in Ev0. injection Ev0 as <-.
      assert (Hk : metric_keys mhs vs = pair_keys (combine mhs strings))
        by (unfold metric_keys; now rewrite Hv).
      rewrite Hk in ND.
      destruct (fill_metrics_stored _ _ _ _ _ Em (NoDup_app_remove_r _ _ ND) Hp)
        as (x & Hc & Hg).
      exists x. split; [assumption|].
      rewrite (fill_date_ranges_keep _ _ _ _ _ Hf); [assumption|].
      apply (NoDup_app_disjoint _ _ ND).
      unfold pair_keys. apply (in_map (fun p => name (fst p)) _ (mh, v)), Hp.
    + eapply IH; eauto. eapply NoDup_app_remove_l; eauto.
Qed.

(** When no key is assigned twice while a row is built, every paired
    dimension value and every paired metric value is in the mapping. *)
Lemma row_dict_stored header row dicts :
  row_dict header row = Ok dicts ->
  NoDup (keys_written header row) ->
  (forall h s,
      In (h, s) (combine (dimensionHeaders header) (dimensions row)) ->
      Py.get h dicts = Some (Py.Str s)) /\
  (forall vs strings mh v,
      In vs (metrics row) -> values vs = Some strings ->
      In (mh, v) (combine (metricHeaderEntries header) strings) ->
      exists x, Py.get (name mh) dicts = Some x /\ sniffed v x).
Proof.
  unfold row_dict, keys_written, dimension_keys. intros Hr ND. split.
  - intros h s Hin.
    rewrite (fill_date_ranges_keep _ _ _ _ _ Hr).
    + apply fill_dimensions_stored; [eapply NoDup_app_remove_r; eauto|assumption].
    + apply (NoDup_app_disjoint _ _ ND).
      apply (in_map fst _ (h, s)), Hin.
  - intros vs strings mh v Hin Hv Hp.
    destruct (fill_date_ranges_stored _ _ _ _ _ _ _ _ Hr
                (NoDup_app_remove_l _ _ ND) Hin Hv Hp) as (x & Hc & Hg).
    exists x. auto using convert_sniffed.
Qed.

Lemma Forall2_In_l {A B} (R : A -> B -> Prop) l l' a :
  Forall2 R l l' -> In a l -> exists b, In b l' /\ R a b.
Proof.
  induction 1 as [|a0 b0 l l' HR HF IH]; simpl; [tauto|].
  intros [<-|Hin]; [eauto|].
  destruct (IH Hin) as (b & ? & ?). eauto.
Qed.

(** Every row of every report is extracted. *)
Lemma get_ga_data_complete response report_ToList report row :
  get_ga_data response = Ok report_ToList ->
  In report (reports response) -> In row (rows (data report)) ->
  exists dicts,
    In dicts report_ToList /\ row_dict (columnHeader report) row = Ok dicts.
Proof.
  unfold get_ga_data. intros H Hrep Hrow.
  destruct (reports_loop_spec _ _ _ H) as (dss & -> & HFF).
  destruct (Forall2_In_l _ _ _ _ HFF Hrep) as (ds & Hds & HF).
  destruct (Forall2_In_l _ _ _ _ HF Hrow) as (d & Hd & Hr).
  exists d. split; [|assumption].
  simpl. apply in_concat. eauto.
Qed.


(** *** Rows whose counts do not match their headers *)

Lemma combine_shorter {A B} (l : list A) : forall (l' : list B),
  let n := Nat.min (List.length l) (List.length l') in
  combine l l' = combine (firstn n l) (firstn n l') /\
  List.length (combine l l') = n /\
  List.length (firstn n l) = n /\ List.length (firstn n l') = n.
Proof.
  induction l as [|a l IH]; intros [|b l']; simpl; auto.
  destruct (IH l') as (E1 & E2 & E3 & E4).
  repeat split; congruence.
Qed.

Lemma fill_date_ranges_clip mhs sets : forall d,
  fill_date_ranges mhs (map (clip_values (List.length mhs)) sets) d =
  fill_date_ranges mhs sets d.
Proof.
  induction sets as [|vs sets IH]; intros d; simpl.
  - reflexivity.
  - destruct (values vs) as [strings|]; simpl; [|reflexivity].
    rewrite <- combine_firstn_l.
    destruct (fill_metrics (combine mhs strings) d); [apply IH|reflexivity].
Qed.

Lemma row_dict_clip header row :
  row_dict header (clip_row header row) = row_dict header row.
Proof.
  unfold row_dict, clip_row; simpl.
  now rewrite fill_date_ranges_clip, <- combine_firstn_l.
Qed.


(** *** Several date ranges in one row *)

Lemma pair_keys_firstn mhs : forall strings,
  pair_keys (combine mhs strings) =
  firstn (List.length strings) (map name mhs).
Proof.
  induction mhs as [|mh mhs IH]; intros [|s strings]; simpl; auto.
  f_equal. apply IH.
Qed.

Lemma In_firstn_le {A} (l : list A) : forall n m a,
  (n <= m)%nat -> In a (firstn n l) -> In a (firstn m l).
Proof.
  induction l as [|x l IH]; intros [|n] [|m] a Hle Hin; simpl in *;
    try contradiction; try lia.
  destruct Hin as [->|Hin]; [now left|right].
  apply (IH n); [lia|assumption].
Qed.

Lemma firstn_length_firstn {A} (l : list A) : forall n,
  firstn (List.length (firstn n l)) l = firstn n l.
Proof.
  induction l as [|x l IH]; intros [|n]; simpl; auto.
  f_equal. apply IH.
Qed.

(** The keys one date range writes are a prefix of the metric names. *)
Lemma metric_keys_prefix mhs vs :
  metric_keys mhs vs =
  firstn (List.length (metric_keys mhs vs)) (map name mhs).
Proof.
  unfold metric_keys. destruct (values vs) as [strings|]; [|reflexivity].
  rewrite pair_keys_firstn. symmetry. apply firstn_length_firstn.
Qed.

Lemma metric_keys_shorter mhs vs vs' key :
  (List.length (metric_keys mhs vs) <= List.length (metric_keys mhs vs'))%nat ->
  In key (metric_keys mhs vs) -> In key (metric_keys mhs vs').
Proof.
  intros Hle Hin.
  rewrite metric_keys_prefix in Hin. rewrite metric_keys_prefix.
  eapply In_firstn_le; eauto.
Qed.

(** C9, amended.  When a row carries several date ranges, every key the
    last range writes holds the last range's value, whatever the earlier
    ranges wrote there; and when no earlier range pairs more metrics than
    the last one, the row holds exactly what the row with only the last
    range holds. *)
Theorem last_date_range_wins :
  forall header ds earlier final dicts,
    row_dict header {| dimensions := ds; metrics := earlier ++ [final] |}
      = Ok dicts ->
    exists dicts1,
      row_dict header {| dimensions := ds; metrics := [final] |} = Ok dicts1 /\
      (forall key,
          In key (metric_keys (metricHeaderEntries header) final) ->
          Py.get key dicts = Py.get key dicts1) /\
      ((forall vs, In vs earlier ->
          (List.length (metric_keys (metricHeaderEntries header) vs) <=
           List.length (metric_keys (metricHeaderEntries header) final))%nat) ->
       forall key, Py.get key dicts = Py.get key dicts1).
Proof.
  intros header ds earlier final dicts. unfold row_dict; simpl.
  set (mhs := metricHeaderEntries header).
  set (d0 := fill_dimensions (combine (dimensionHeaders header) ds) []).
  rewrite fill_date_ranges_app.
  destruct (fill_date_ranges mhs earlier d0) as [de|e] eqn:Ee; [|discriminate].
  simpl.
  destruct (values final) as [strings|] eqn:Ev; [|discriminate].
  destruct (fill_metrics (combine mhs strings) de) as [d|e] eqn:Em; [|discriminate].
  intros H; injection H as <-.
  assert (Hf : metric_keys mhs final = pair_keys (combine mhs strings))
    by (unfold metric_keys; now rewrite Ev).
  assert (Hok : is_ok (fill_metrics (combine mhs strings) d0) = true).
  { apply fill_metrics_ok_iff. apply (fill_metrics_ok_iff _ de). now rewrite Em. }
  destruct (fill_metrics (combine mhs strings) d0) as [d1|e] eqn:Em0; [|discriminate].
  exists d1. split; [reflexivity|]. split.
  - intros key Hin. rewrite Hf in Hin. eapply fill_metrics_written; eauto.
  - intros Hlen key.
    destruct (in_dec string_dec key (pair_keys (combine mhs strings))) as [Hk|Hk].
    + eapply fill_metrics_written; eauto.
    + rewrite (fill_metrics_keep _ _ _ _ Em Hk), (fill_metrics_keep _ _ _ _ Em0 Hk).
      eapply fill_date_ranges_keep; eauto.
      intros Hin. apply in_flat_map in Hin. destruct Hin as (vs & Hvs & Hkey).
      apply Hk. rewrite <- Hf.
      exact (metric_keys_shorter mhs vs final key (Hlen vs Hvs) Hkey).
Qed.

Example ragged_row_dict :
  row_dict two_metrics ragged_row =
  Ok [("ga:date", Py.Str "20200426"); ("ga:sessions", Py.Int 3);
      ("ga:users", Py.Int 2)].
Proof. reflexivity. Qed.

(** C9, counterexample.  With the date ranges [["1", "2"]] and [["3"]] the
    row keeps [2] under ["ga:users"], a value of the first range; the row
    with only the last range has nothing there. *)
Lemma earlier_range_value_survives : ~ keeps_only_last_range.
Proof.
  intros H.
  destruct (H two_metrics ["20200426"] [ {| values := Some ["1"; "2"] |} ]
              {| values := Some ["3"] |} _ ltac:(discriminate) ragged_row_dict)
    as (d1 & E & G).
  vm_compute in E. injection E as <-.
  specialize (G "ga:users"). vm_compute in G. discriminate.
Qed.

(** *** Metric values that are not numbers *)

Lemma row_dict_ok_values header row :
  is_ok (row_dict header row) = true ->
  forall vs, In vs (metrics row) ->
    exists strings, values vs = Some strings /\
      forall mh v, In (mh, v) (combine (metricHeaderEntries header) strings) ->
                   is_ok (convert v) = true.
Proof. unfold row_dict. apply fill_date_ranges_ok_iff. Qed.

Lemma convert_rejects_comma value :
  Py.contains_char "," value = true -> convert value = Raise ValueError.
Proof.
  intros H. unfold convert. rewrite H. simpl.
  now rewrite (float_rejects_comma _ H).
Qed.

(** C10.  [get_ga_data] raises on metric value strings that are not
    numbers of the kind the test of line 101 selects: [ValueError] for
    ["1,5"] (sent to [float]), for [""] and for ["N/A"] (sent to [int]).
    A value string with a comma is always refused, as no float literal
    has one.  When [get_ga_data] returns, every metric value string paired
    with a metric header has been converted without error. *)
Theorem get_ga_data_needs_numeric_values :
  get_ga_data (one_metric_page "1,5") = Raise ValueError /\
  get_ga_data (one_metric_page "") = Raise ValueError /\
  get_ga_data (one_metric_page "N/A") = Raise ValueError /\
  (forall value,
      Py.contains_char "," value = true ->
      get_ga_data (one_metric_page value) = Raise ValueError) /\
  forall response report_ToList,
    get_ga_data response = Ok report_ToList ->
    forall report row vs,
      In report (reports response) -> In row (rows (data report)) ->
      In vs (metrics row) ->
      exists strings, values vs = Some strings /\
        forall mh v,
          In (mh, v) (combine (metricHeaderEntries (columnHeader report)) strings) ->
          is_ok (convert v) = true.
Proof.
  repeat split; try reflexivity.
  - intros value H.
    pose proof (convert_rejects_comma _ H) as Hc.
    unfold get_ga_data, one_metric_page, report_page.
    cbn [reports reports_loop columnHeader data rows rows_loop row_dict
         metrics metricHeaderEntries fill_date_ranges values combine
         fill_metrics].
    now rewrite Hc.
  - intros response report_ToList H report row vs Hrep Hrow Hvs.
    destruct (get_ga_data_complete _ _ _ _ H Hrep Hrow) as (d & _ & Hr).
    apply (row_dict_ok_values (columnHeader report) row);
      [now rewrite Hr|assumption].
Qed.

(** ** Column names *)

Lemma replace_from_cons old new c s :
  Py.replace_from old new 0 (String c s) =
  if String.prefix old (String c s)
  then (new ++ Py.replace_from old new (String.length old - 1) s)%string
  else String c (Py.replace_from old new 0 s).
Proof. reflexivity. Qed.

Lemma contains_cons old c s :
  Py.contains old (String c s) =
  String.prefix old (String c s) || Py.contains old s.
Proof. reflexivity. Qed.

Lemma replace_from_absent old new s :
  Py.contains old s = false -> Py.replace_from old new 0 s = s.
Proof.
  induction s as [|c s IH]; [reflexivity|].
  rewrite contains_cons, replace_from_cons.
  intros H. apply orb_false_iff in H. destruct H as [Hp Hc].
  rewrite Hp. f_equal. auto.
Qed.

Lemma replace_from_length old s : forall skip,
  (String.length (Py.replace_from old "" skip s) <= String.length s)%nat.
Proof.
  induction s as [|c s IH]; intros skip; [simpl; lia|].
  destruct skip as [|k].
  - rewrite replace_from_cons.
    destruct (String.prefix old (String c s)); simpl.
    + specialize (IH (String.length old - 1)%nat). lia.
    + specialize (IH 0%nat). lia.
  - simpl. specialize (IH k). lia.
Qed.

Lemma replace_from_present old s :
  Py.contains old s = true ->
  (String.length (Py.replace_from old "" 0 s) < String.length s)%nat.
Proof.
  induction s as [|c s IH]; [discriminate|].
  rewrite contains_cons, replace_from_cons.
  destruct (String.prefix old (String c s)); simpl.
  - intros _. pose proof (replace_from_length old s (String.length old - 1)). lia.
  - intros H. specialize (IH H). lia.
Qed.

(** A string is left alone exactly when ["ga:"] does not occur in it. *)
Lemma strip_ga_fixed column :
  strip_ga column = column <-> Py.contains "ga:" column = false.
Proof.
  unfold strip_ga, Py.replace. split.
  - intros H. destruct (Py.contains "ga:" column) eqn:E; [|reflexivity].
    apply replace_from_present in E. rewrite H in E. lia.
  - apply replace_from_absent.
Qed.

Lemma prefix_contains_char old : forall s c,
  String.prefix old s = true ->
  Py.contains_char c old = true -> Py.contains_char c s = true.
Proof.
  induction old as [|a old IH]; intros [|b s] c Hp Hc; simpl in *;
    try discriminate.
  destruct (ascii_dec a b) as [->|]; [|discriminate].
  apply orb_true_iff in Hc. apply orb_true_iff.
  destruct Hc as [Hc|Hc]; [now left|right; eauto].
Qed.

Lemma no_colon_no_ga s :
  Py.contains_char ":" s = false -> Py.contains "ga:" s = false.
Proof.
  induction s as [|c s IH]; [reflexivity|].
  intros H.
  assert (Hs : Py.contains_char ":" s = false)
    by (simpl in H; now apply orb_false_iff in H).
  change (String.prefix "ga:" (String c s) || Py.contains "ga:" s = false).
  rewrite (IH Hs), orb_false_r.
  destruct (String.prefix "ga:" (String c s)) eqn:Hp; [|reflexivity].
  rewrite (prefix_contains_char "ga:" _ ":" Hp eq_refl) in H. discriminate.
Qed.

(** C7, counterexample.  ["gga:a:"] becomes ["ga:"], and ["ga:"] becomes
    the empty string. *)
Lemma strip_ga_not_idempotent :
  ~ (forall column, strip_ga (strip_ga column) = strip_ga column).
Proof. intros H. specialize (H "gga:a:"). vm_compute in H. discriminate. Qed.

(** C7, amended.  Stripping a stripped column name changes nothing exactly
    when the stripped name holds no further ["ga:"].  That is so for every
    name made of the prefix ["ga:"] and a rest without a colon: such a name
    is stripped to its rest, which stripping leaves alone.  A table all of
    whose stripped column names are free of ["ga:"] is left alone by a
    second stripping. *)
Theorem strip_ga_idempotent_iff :
  (forall column,
      strip_ga (strip_ga column) = strip_ga column <->
      Py.contains "ga:" (strip_ga column) = false) /\
  (forall rest,
      Py.contains_char ":" rest = false ->
      strip_ga ("ga:" ++ rest)%string = rest /\ strip_ga rest = rest) /\
  (forall df,
      (forall column, In column (columns (strip_columns df)) ->
                      Py.contains "ga:" column = false) ->
      strip_columns (strip_columns df) = strip_columns df).
Proof.
  split; [|split].
  - intros column. apply strip_ga_fixed.
  - intros rest H.
    assert (E : strip_ga rest = rest) by now apply strip_ga_fixed, no_colon_no_ga.
    split; [|exact E].
    unfold strip_ga, Py.replace in *. simpl.
    destruct rest as [|c rest]; [reflexivity|].
    exact E.
  - intros df H. unfold strip_columns in *; simpl in *. f_equal.
    induction (map strip_ga (columns df)) as [|c l IH]; [reflexivity|].
    simpl. f_equal.
    + apply strip_ga_fixed, H. now left.
    + apply IH. intros column Hin. apply H. now right.
Qed.

(** ** Page offsets *)

Lemma offsets_loop_spec n : forall offset acc,
  offsets_loop n offset acc =
  acc ++ map (fun i => offset + 100000 * Z.of_nat i) (seq 0 n).
Proof.
  induction n as [|n IH]; intros offset acc.
  - simpl. now rewrite app_nil_r.
  - change (offsets_loop (S n) offset acc)
      with (offsets_loop n (offset + 100000) (acc ++ [offset])).
    rewrite IH, <- app_assoc.
    change (seq 0 (S n)) with (0%nat :: seq 1 n).
    rewrite <- seq_shift, map_cons, map_map.
    change ([offset] ++ ?l) with (offset :: l).
    f_equal. f_equal.
    + change (Z.of_nat 0) with 0. lia.
    + apply map_ext. intros i. rewrite Nat2Z.inj_succ. lia.
Qed.

Lemma offset_list_many row_count token :
  100000 < row_count ->
  offset_list row_count (Some token) =
  page_offsets (Z.to_nat (ceil_div row_count 100000)).
Proof.
  intros H. unfold offset_list.
  replace (100000 <? row_count) with true by (symmetry; now apply Z.ltb_lt).
  simpl. rewrite offsets_loop_spec. reflexivity.
Qed.

Lemma offset_list_single row_count nextPageToken :
  row_count <= 100000 \/ nextPageToken = None ->
  offset_list row_count nextPageToken = [0].
Proof.
  intros [H| ->]; unfold offset_list.
  - replace (100000 <? row_count) with false by (symmetry; now apply Z.ltb_ge).
    reflexivity.
  - now rewrite andb_false_r.
Qed.

(** [ceil_div a b] is the least [k] with [a <= b * k]. *)
Lemma ceil_div_spec a b :
  0 < b -> b * (ceil_div a b - 1) < a <= b * ceil_div a b.
Proof.
  intros Hb. unfold ceil_div.
  pose proof (Z.div_mod (- a) b ltac:(lia)) as E.
  pose proof (Z.mod_pos_bound (- a) b Hb) as B.
  set (q := (- a) / b) in *. set (r := (- a) mod b) in *.
  split; nia.
Qed.

Lemma page_offsets_increasing k : forall a,
  StronglySorted Z.lt (map (fun i => 100000 * Z.of_nat i) (seq a k)).
Proof.
  induction k as [|k IH]; intros a; cbn [seq map]; constructor.
  - apply IH.
  - apply Forall_forall. intros x Hx.
    apply in_map_iff in Hx. destruct Hx as (i & <- & Hi).
    apply in_seq in Hi. lia.
Qed.

Example offsets_250000 :
  map Py.str (offset_list 250000 (Some "100000")) = ["0"; "100000"; "200000"].
Proof. reflexivity. Qed.

Example offsets_100000 : offset_list 100000 (Some "100000") = [0].
Proof. reflexivity. Qed.

Section PipelineProperties.

Variable VIEW_ID : string.
Variable execute : list ReportRequest -> ReportRequest -> result Response.
Variable random : nat -> Q.

Variables (startDate endDate : string).
Variables (dimensions : list Dimension) (metrics : list Metric).

Local Abbreviation request :=
  (report_request VIEW_ID startDate endDate dimensions metrics).
Local Abbreviation pages :=
  (fetch_pages VIEW_ID execute analyticsreporting_v4
     startDate endDate dimensions metrics).
Local Abbreviation assemble response := (
  get_response VIEW_ID execute analyticsreporting_v4 response
    startDate endDate dimensions metrics).
Local Abbreviation this_attempt :=
  (attempt VIEW_ID execute startDate endDate dimensions metrics).
Local Abbreviation service_answers :=
  (answers VIEW_ID execute startDate endDate dimensions metrics).
Local Abbreviation retry :=
  (retry_loop VIEW_ID execute random startDate endDate dimensions metrics).
Local Abbreviation failing :=
  (fail_and_back_off VIEW_ID execute random startDate endDate dimensions metrics).

(** *** The steps, one equation each *)

Lemma after_requests_nil w : after_requests [] w = w.
Proof. unfold after_requests. rewrite app_nil_r. now destruct w. Qed.

Lemma after_requests_app l1 l2 w :
  after_requests l2 (after_requests l1 w) = after_requests (l1 ++ l2) w.
Proof. unfold after_requests. simpl. now rewrite app_assoc. Qed.

Lemma fetch_pages_cons token rest completeData w :
  pages (token :: rest) completeData w =
  match execute (requests w) (request token) with
  | Ok response =>
      match get_ga_data response with
      | Ok report_ToList =>
          pages rest (completeData ++ report_ToList)
                (after_requests [request token] w)
      | Raise e => (Raise e, after_requests [request token] w)
      end
  | Raise e => (Raise e, after_requests [request token] w)
  end.
Proof.
  cbn [fetch_pages]. unfold bind, get_report.
  destruct (execute (requests w) (request token)) as [response|e];
    [|reflexivity].
  destruct (get_ga_data response); reflexivity.
Qed.

Lemma attempt_eq w :
  this_attempt w =
  let w1 := {| requests := requests w; builds := S (builds w);
               sleeps := sleeps w; draws := draws w |} in
  match execute (requests w) (request "0") with
  | Ok response => assemble response (after_requests [request "0"] w1)
  | Raise e => (Raise e, after_requests [request "0"] w1)
  end.
Proof.
  unfold attempt, bind, initialize_analyticsreporting, get_report. simpl.
  destruct (execute (requests w) (request "0")); reflexivity.
Qed.

Lemma retry_loop_cons n rest w :
  retry (n :: rest) w =
  match this_attempt w with
  | (Ok df, w') => (Ok (Some df), w')
  | (Raise (HTTPError reason), w') =>
      if retryable reason
      then retry rest (snd (backoff random n w'))
      else (Ok None, w')
  | (Raise e, w') => (Raise e, w')
  end.
Proof.
  cbn [retry_loop].
  destruct (this_attempt w) as [[df|e] w']; [reflexivity|].
  destruct e; reflexivity.
Qed.

Lemma backoff_world n w :
  snd (backoff random n w) =
  {| requests := requests w; builds := builds w;
     sleeps := sleeps w ++ [(inject_Z (2 ^ Z.of_nat n) + random (draws w))%Q];
     draws := S (draws w) |}.
Proof. reflexivity. Qed.

(** *** What each step does to the world *)

Lemma fetch_pages_spec tokens : forall page_rows completeData w,
  Forall2 page_of (service_answers (requests w) tokens) page_rows ->
  pages tokens completeData w =
  (Ok (completeData ++ List.concat page_rows),
   after_requests (map request tokens) w).
Proof.
  induction tokens as [|token tokens IH]; intros page_rows acc w HF.
  - inversion HF; subst. simpl. now rewrite app_nil_r, after_requests_nil.
  - cbn [answers] in HF.
    inversion HF as [|ans rows_ anss rowss Hpage HF']; subst.
    destruct Hpage as (response & Hans & Hrows).
    rewrite fetch_pages_cons, Hans, Hrows.
    rewrite (IH rowss); [|exact HF'].
    rewrite after_requests_app. simpl. now rewrite <- app_assoc.
Qed.

Lemma only_requests_refl w : only_requests w w.
Proof.
  unfold only_requests. repeat split; auto.
  exists []. now rewrite app_nil_r.
Qed.

Lemma only_requests_after bodies w w' :
  only_requests (after_requests bodies w) w' -> only_requests w w'.
Proof.
  unfold only_requests, after_requests. simpl.
  intros (B & S & D & more & R). repeat split; auto.
  exists (bodies ++ more). now rewrite R, app_assoc.
Qed.

Lemma fetch_pages_clock tokens : forall completeData w,
  only_requests w (snd (pages tokens completeData w)).
Proof.
  induction tokens as [|token tokens IH]; intros acc w.
  - apply only_requests_refl.
  - rewrite fetch_pages_cons.
    destruct (execute (requests w) (request token)) as [response|e].
    + destruct (get_ga_data response) as [rows_|e].
      * eapply only_requests_after, IH.
      * eapply only_requests_after, only_requests_refl.
    + eapply only_requests_after, only_requests_refl.
Qed.

Lemma get_response_clock response w :
  only_requests w (snd (assemble response w)).
Proof.
  unfold get_response.
  destruct (reports response) as [|report0 rest]; [apply only_requests_refl|].
  destruct (get_ga_data response) as [rows_|e]; [|apply only_requests_refl].
  destruct (rowCount (data report0)) as [rc|]; [|apply only_requests_refl].
  destruct (sampled (data report0)); [apply only_requests_refl|].
  unfold bind.
  match goal with |- context [pages ?t ?a w] =>
    pose proof (fetch_pages_clock t a w) as H;
    destruct (pages t a w) as [[cd|e] w'] end; exact H.
Qed.

Lemma attempt_clock w :
  builds (snd (this_attempt w)) = S (builds w) /\
  sleeps (snd (this_attempt w)) = sleeps w /\ draws (snd (this_attempt w)) = draws w.
Proof.
  rewrite attempt_eq. cbv zeta.
  destruct (execute (requests w) (request "0")) as [response|e].
  - match goal with |- context [get_response _ _ _ _ _ _ _ _ ?w1] =>
      destruct (get_response_clock response w1) as (B & S & D & _) end.
    simpl in *. auto.
  - simpl. auto.
Qed.

Local Abbreviation table page_rows :=
  (strip_columns (pd_DataFrame page_rows)).
Local Abbreviation wrapper :=
  (get_dataframes VIEW_ID execute random startDate endDate dimensions metrics).

(** *** Assembly over several pages *)

(** C1.  When the first page reports more than 100000 rows and carries a
    continuation token (and is not sampled and extracts), and the service
    answers each request of the loop with a page that extracts,
    [get_response] sends exactly [k] requests, [k] the least number with
    [rowCount <= 100000 * k]; their page tokens are the decimal strings of
    the offsets [0, 100000, ..., (k-1)*100000], which increase strictly;
    and the table returned is built from the rows of those pages, one page
    after the other in the order fetched. *)
Theorem get_response_paginates :
  forall (response : Response) (report0 : Report) (rest : list Report)
         (row_count : Z) (token : string)
         (page_rows : list (list Py.dict)) (w : World),
    reports response = report0 :: rest ->
    rowCount (data report0) = Some row_count ->
    100000 < row_count ->
    nextPageToken report0 = Some token ->
    sampled (data report0) = false ->
    is_ok (get_ga_data response) = true ->
    let k := Z.to_nat (ceil_div row_count 100000) in
    let tokens := map Py.str (page_offsets k) in
    Forall2 page_of (service_answers (requests w) tokens) page_rows ->
    assemble response w =
      (Ok (table (List.concat page_rows)),
       after_requests (map request tokens) w) /\
    List.length (map request tokens) = k /\
    map pageToken (map request tokens) = tokens /\
    100000 * (Z.of_nat k - 1) < row_count <= 100000 * Z.of_nat k /\
    page_offsets k = map (fun i => 100000 * Z.of_nat i) (seq 0 k) /\
    StronglySorted Z.lt (page_offsets k).
Proof.
  intros response report0 rest row_count token page_rows w
         Hrep Hrc Hbig Htok Hsam Hok k tokens HF.
  repeat split.
  - unfold get_response. rewrite Hrep.
    destruct (get_ga_data response) as [first_rows|e]; [|discriminate].
    rewrite Hrc, Hsam, Htok, (offset_list_many _ _ Hbig).
    unfold bind. fold k. fold tokens.
    now rewrite (fetch_pages_spec tokens page_rows).
  - unfold tokens, page_offsets. now rewrite !length_map, length_seq.
  - rewrite map_map. simpl. apply map_id.
  - pose proof (ceil_div_spec row_count 100000 ltac:(lia)). unfold k.
    rewrite Z2Nat.id; lia.
  - pose proof (ceil_div_spec row_count 100000 ltac:(lia)). unfold k.
    rewrite Z2Nat.id; lia.
  - apply page_offsets_increasing.
Qed.

(** *** Sampled first pages *)

(** C2, amended.  A first page with a sampling indicator always makes
    [get_response] raise, without any request sent and so without a table
    returned; the exception is [SampledDataError] whenever the page itself
    extracts and reports a row count, which lines 146-147 need before the
    test of line 150 is reached. *)
Theorem sampled_first_page_aborts :
  forall (response : Response) (report0 : Report) (rest : list Report)
         (w : World),
    reports response = report0 :: rest ->
    sampled (data report0) = true ->
    (exists e, assemble response w = (Raise e, w)) /\
    (is_ok (get_ga_data response) = true ->
     rowCount (data report0) <> None ->
     assemble response w = (Raise SampledDataError, w)).
Proof.
  intros response report0 rest w Hrep Hsam.
  unfold get_response. rewrite Hrep.
  destruct (get_ga_data response) as [first_rows|e].
  - destruct (rowCount (data report0)) as [rc|].
    + rewrite Hsam. split; [eexists; reflexivity|reflexivity].
    + split; [eexists; reflexivity|]. intros _ H. now contradiction H.
  - split; [eexists; reflexivity|discriminate].
Qed.

(** *** A single segment *)

(** C3, amended.  When the first page reports at most 100000 rows, or
    carries no continuation token (and is not sampled and extracts), the
    offsets are [[0]] and the loop of [get_response] sends one request,
    for token ["0"]; that request comes after the one [get_dataframes]
    sent for the first page, so the query sends two requests, both for
    token ["0"], and the table is built from the answer to the second. *)
Theorem single_segment_fetches :
  forall (response : Response) (report0 : Report) (rest : list Report)
         (row_count : Z),
    reports response = report0 :: rest ->
    rowCount (data report0) = Some row_count ->
    row_count <= 100000 \/ nextPageToken report0 = None ->
    sampled (data report0) = false ->
    is_ok (get_ga_data response) = true ->
    offset_list row_count (nextPageToken report0) = [0] /\
    (forall w page,
        page_of (execute (requests w) (request "0")) page ->
        assemble response w =
          (Ok (table page), after_requests [request "0"] w)) /\
    (forall w page,
        execute (requests w) (request "0") = Ok response ->
        page_of (execute (requests w ++ [request "0"]) (request "0")) page ->
        wrapper w =
          (Ok (Some (table page)),
           {| requests := requests w ++ [request "0"; request "0"];
              builds := S (builds w);
              sleeps := sleeps w; draws := draws w |})).
Proof.
  intros response report0 rest row_count Hrep Hrc Hsmall Hsam Hok.
  assert (Hone : forall w page,
             page_of (execute (requests w) (request "0")) page ->
             assemble response w =
               (Ok (table page), after_requests [request "0"] w)).
  { intros w page Hpage.
    unfold get_response. rewrite Hrep.
    destruct (get_ga_data response) as [first_rows|e]; [|discriminate].
    rewrite Hrc, Hsam, (offset_list_single _ _ Hsmall).
    unfold bind. change (map Py.str [0]) with ["0"].
    rewrite (fetch_pages_spec ["0"] [page]).
    - simpl. now rewrite app_nil_r.
    - simpl. constructor; [exact Hpage|constructor]. }
  split; [now apply offset_list_single|]. split; [exact Hone|].
  intros w page Hfirst Hsecond.
  unfold get_dataframes. cbn [seq]. rewrite retry_loop_cons, attempt_eq.
  cbv zeta. rewrite Hfirst, (Hone _ page); [|exact Hsecond].
  unfold after_requests. simpl. now rewrite <- app_assoc.
Qed.

(** *** The retry wrapper *)


Lemma fail_and_back_off_spec ns : forall w w',
  failing ns w = Some w' ->
  (forall rest, retry (ns ++ rest) w = retry rest w') /\
  sleeps w' = sleeps w ++ backoff_durations random ns (draws w) /\
  builds w' = (builds w + List.length ns)%nat /\
  draws w' = (draws w + List.length ns)%nat.
Proof.
  induction ns as [|n ns IH]; intros w w' H.
  - injection H as <-. simpl. rewrite app_nil_r. repeat split; auto; lia.
  - cbn [fail_and_back_off] in H.
    pose proof (attempt_clock w) as (B & S & D).
    destruct (this_attempt w) as [[df|e] w1] eqn:Htry; [discriminate|].
    destruct e; try discriminate.
    destruct (retryable reason) eqn:Hr; [|discriminate].
    simpl in B, S, D.
    destruct (IH _ _ H) as (Hloop & Hs & Hb & Hd).
    rewrite backoff_world in Hs, Hb, Hd. simpl in Hs, Hb, Hd.
    repeat split.
    + intros rest. rewrite <- app_comm_cons, retry_loop_cons, Htry, Hr.
      apply Hloop.
    + rewrite Hs, S, D, <- app_assoc. reflexivity.
    + rewrite Hb, B. simpl. lia.
    + rewrite Hd, D. simpl. lia.
Qed.

Lemma retry_loop_builds ns : forall w,
  (builds (snd (retry ns w)) <= builds w + List.length ns)%nat.
Proof.
  induction ns as [|n ns IH]; intros w.
  - simpl. lia.
  - rewrite retry_loop_cons.
    pose proof (attempt_clock w) as (B & _).
    destruct (this_attempt w) as [[df|e] w1]; simpl in B; [simpl; lia|].
    destruct e; simpl; try lia.
    destruct (retryable reason); simpl; [|lia].
    specialize (IH (snd (backoff random n w1))).
    rewrite backoff_world in IH at 2. simpl in IH. lia.
Qed.

Lemma backoff_durations_jitter :
  (forall d, (0 <= random d)%Q /\ (random d < 1)%Q) ->
  forall ns d,
    Forall2 (fun n seconds =>
               exists jitter,
                 seconds = (inject_Z (2 ^ Z.of_nat n) + jitter)%Q /\
                 (0 <= jitter)%Q /\ (jitter < 1)%Q)
            ns (backoff_durations random ns d).
Proof.
  intros Hrand. induction ns as [|n ns IH]; intros d; simpl; constructor.
  - exists (random d). split; [reflexivity|apply Hrand].
  - apply IH.
Qed.


End PipelineProperties.

(** * Concrete runs *)

Lemma one_half_range d : (0 <= one_half d)%Q /\ (one_half d < 1)%Q.
Proof. unfold Qle, Qlt, one_half; simpl; lia. Qed.

(** C1, on a run: 250000 rows are fetched with the tokens ["0"],
    ["100000"] and ["200000"]. *)
Lemma get_response_paginates_witness :
  exists w',
    get_response "view" (always (Ok big_page)) analyticsreporting_v4 big_page
      "2020-04-26" "2020-04-26" [] [] new_world =
      (Ok (strip_columns (pd_DataFrame (one_row ++ one_row ++ one_row))), w') /\
    tokens_sent w' = ["0"; "100000"; "200000"].
Proof.
  destruct (get_response_paginates "view" (always (Ok big_page))
              "2020-04-26" "2020-04-26" [] [] big_page _ _ 250000 "100000"
              [one_row; one_row; one_row] new_world
              eq_refl eq_refl eq_refl eq_refl eq_refl eq_refl)
    as (E & _).
  - repeat constructor; exists big_page; split; reflexivity.
  - eexists. split; [exact E|reflexivity].
Defined.

(** C2, counterexample: a sampled page whose metric is ["N/A"] raises
    [ValueError]. *)
Lemma sampled_page_raises_ValueError : ~ sampled_raises_SampledDataError.
Proof.
  intros H.
  specialize (H "view" (always (Ok sampled_page_NA)) sampled_page_NA _ _
                "2020-04-26" "2020-04-26" [] [] new_world eq_refl eq_refl).
  vm_compute in H. discriminate.
Qed.

(** C2, on a run: a sampled page that extracts raises [SampledDataError]
    and sends nothing. *)
Lemma sampled_first_page_aborts_witness :
  get_response "view" (always (Ok sampled_page)) analyticsreporting_v4
    sampled_page "2020-04-26" "2020-04-26" [] [] new_world =
  (Raise SampledDataError, new_world).
Proof.
  apply (sampled_first_page_aborts "view" (always (Ok sampled_page))
           "2020-04-26" "2020-04-26" [] [] sampled_page _ _ new_world
           eq_refl eq_refl).
  - reflexivity.
  - discriminate.
Defined.

(** C3, counterexample: a report of one row costs two requests. *)
Lemma small_query_sends_two_requests : ~ small_query_sends_one_request.
Proof.
  intros H.
  specialize (H "view" (always (Ok small_page)) one_half
                "2020-04-26" "2020-04-26" [] [] new_world small_page _ _ 1
                eq_refl eq_refl eq_refl ltac:(discriminate)).
  vm_compute in H. discriminate.
Qed.

(** C3, on a run: the two requests of a report of one row. *)
Lemma single_segment_fetches_witness :
  exists w',
    get_dataframes "view" (always (Ok small_page)) one_half
      "2020-04-26" "2020-04-26" [] [] new_world =
      (Ok (Some (strip_columns (pd_DataFrame one_row))), w') /\
    tokens_sent w' = ["0"; "0"] /\ builds w' = 1%nat.
Proof.
  destruct (single_segment_fetches "view" (always (Ok small_page)) one_half
              "2020-04-26" "2020-04-26" [] [] small_page _ _ 1
              eq_refl eq_refl (or_intror eq_refl) eq_refl eq_refl)
    as (_ & _ & E).
  eexists. split.
  - apply (E new_world one_row); [reflexivity|].
    exists small_page. split; reflexivity.
  - split; reflexivity.
Defined.






(** C9, on a run: with the date ranges [["1", "2"]] and [["3", "4"]] the
    row holds what the row with only [["3", "4"]] holds. *)
Lemma last_date_range_wins_witness :
  exists dicts1,
    row_dict two_metrics
      {| dimensions := ["20200426"];
         metrics := [ {| values := Some ["3"; "4"] |} ] |} = Ok dicts1 /\
    forall key,
      Py.get key [("ga:date", Py.Str "20200426"); ("ga:sessions", Py.Int 3);
                  ("ga:users", Py.Int 4)] = Py.get key dicts1.
Proof.
  destruct (last_date_range_wins two_metrics ["20200426"]
              [ {| values := Some ["1"; "2"] |} ]
              {| values := Some ["3"; "4"] |} _ eq_refl)
    as (dicts1 & E & _ & G).
  exists dicts1. split; [exact E|].
  apply G. intros vs [<-|[]]. apply le_n.
Defined.

(** C10, on a run: [mixed_page] extracts, so its metric value strings
    convert. *)
Lemma get_ga_data_needs_numeric_values_witness :
  get_ga_data mixed_page = Ok mixed_rows /\
  forall report row vs,
    In report (reports mixed_page) -> In row (rows (data report)) ->
    In vs (metrics row) ->
    exists strings, values vs = Some strings /\
      forall mh v,
        In (mh, v) (combine (metricHeaderEntries (columnHeader report)) strings) ->
        is_ok (convert v) = true.
Proof.
  split; [reflexivity|].
  apply (proj2 (proj2 (proj2 (proj2 get_ga_data_needs_numeric_values)))
           mixed_page mixed_rows).
  reflexivity.
Defined.

(** C7, on a run: ["ga:sessions"] is stripped to ["sessions"], which
    stripping leaves alone. *)
Lemma strip_ga_idempotent_iff_witness :
  strip_ga "ga:sessions" = "sessions" /\ strip_ga "sessions" = "sessions".
Proof.
  apply (proj1 (proj2 strip_ga_idempotent_iff) "sessions"). reflexivity.
Defined.

(** * Further properties *)

(** ** Row extraction, row by row *)

Lemma rows_loop_extract header rs : forall acc,
  rows_loop header rs acc =
  match extract_all (map (pair header) rs) with
  | Ok ds => Ok (acc ++ ds)
  | Raise e => Raise e
  end.
Proof.
  induction rs as [|row rs IH]; intros acc; simpl.
  - now rewrite app_nil_r.
  - destruct (row_dict header row) as [d|e]; [|reflexivity].
    rewrite IH.
    destruct (extract_all (map (pair header) rs)) as [ds|e]; [|reflexivity].
    now rewrite <- app_assoc.
Qed.

Lemma extract_all_app l1 l2 :
  extract_all (l1 ++ l2) =
  match extract_all l1 with
  | Ok ds1 =>
      match extract_all l2 with
      | Ok ds2 => Ok (ds1 ++ ds2)
      | Raise e => Raise e
      end
  | Raise e => Raise e
  end.
Proof.
  induction l1 as [|[h r] l1 IH]; simpl.
  - destruct (extract_all l2); reflexivity.
  - destruct (row_dict h r) as [d|e]; [|reflexivity].
    rewrite IH.
    destruct (extract_all l1) as [ds1|e]; [|reflexivity].
    destruct (extract_all l2); reflexivity.
Qed.

Lemma reports_loop_extract rps : forall acc,
  reports_loop rps acc =
  match extract_all
          (flat_map (fun report =>
                       map (pair (columnHeader report)) (rows (data report)))
                    rps) with
  | Ok ds => Ok (acc ++ ds)
  | Raise e => Raise e
  end.
Proof.
  induction rps as [|rp rps IH]; intros acc; simpl.
  - now rewrite app_nil_r.
  - rewrite rows_loop_extract, extract_all_app.
    destruct (extract_all (map (pair (columnHeader rp)) (rows (data rp))))
      as [ds1|e]; [|reflexivity].
    rewrite IH.
    match goal with |- context [extract_all ?l] =>
      destruct (extract_all l) as [ds2|e] end; [|reflexivity].
    now rewrite app_assoc.
Qed.

Lemma get_ga_data_extract_all response :
  get_ga_data response = extract_all (all_rows response).
Proof.
  unfold get_ga_data, all_rows. rewrite reports_loop_extract.
  match goal with |- context [extract_all ?l] =>
    destruct (extract_all l) end; reflexivity.
Qed.

Lemma extract_all_ok hrs : forall ds,
  extract_all hrs = Ok ds ->
  Forall2 (fun hr d => row_dict (fst hr) (snd hr) = Ok d) hrs ds.
Proof.
  induction hrs as [|[h r] hrs IH]; intros ds H; simpl in H.
  - injection H as <-. constructor.
  - destruct (row_dict h r) as [d|e] eqn:Er; [|discriminate].
    destruct (extract_all hrs) as [ds'|e]; [|discriminate].
    injection H as <-. constructor; auto.
Qed.

Lemma extract_all_ok_iff hrs :
  is_ok (extract_all hrs) = true <->
  forall header row, In (header, row) hrs -> is_ok (row_dict header row) = true.
Proof.
  induction hrs as [|[h r] hrs IH]; simpl.
  - split; [intros _ ? ? []|reflexivity].
  - destruct (row_dict h r) as [d|e] eqn:Er.
    + destruct (extract_all hrs) as [ds|e'].
      * split; [|reflexivity].
        intros _ header row [E|Hin]; [injection E as <- <-; now rewrite Er|].
        now apply IH.
      * split; [discriminate|].
        intros H. apply IH. intros header row Hin. apply H. now right.
    + split; [discriminate|].
      intros H. specialize (H h r (or_introl eq_refl)). now rewrite Er in H.
Qed.

Lemma convert_raises value e : convert value = Raise e -> e = ValueError.
Proof.
  unfold convert.
  destruct (Py.contains_char "," value || Py.contains_char "." value).
  - destruct (Py.float value); [discriminate|]. now intros H; injection H.
  - destruct (Py.int value); [discriminate|]. now intros H; injection H.
Qed.

Lemma fill_metrics_raises pairs : forall d e,
  fill_metrics pairs d = Raise e -> e = ValueError.
Proof.
  induction pairs as [|[mh v] pairs IH]; intros d e H; simpl in H.
  - discriminate.
  - destruct (convert v) as [x|e'] eqn:Ec.
    + eapply IH; eauto.
    + injection H as <-. eapply convert_raises; eauto.
Qed.

Lemma row_dict_raises header row e :
  row_dict header row = Raise e -> e = ValueError \/ e = TypeError.
Proof.
  unfold row_dict.
  generalize (fill_dimensions
                (combine (dimensionHeaders header) (dimensions row)) []).
  induction (metrics row) as [|vs sets IH]; intros d H; simpl in H.
  - discriminate.
  - destruct (values vs) as [strings|]; [|injection H as <-; now right].
    destruct (fill_metrics (combine (metricHeaderEntries header) strings) d)
      as [d1|e'] eqn:Em.
    + eapply IH; eauto.
    + injection H as <-. left. eapply fill_metrics_raises; eauto.
Qed.

Lemma extract_all_raises hrs e :
  extract_all hrs = Raise e -> e = ValueError \/ e = TypeError.
Proof.
  induction hrs as [|[h r] hrs IH]; simpl; [discriminate|].
  destruct (row_dict h r) as [d|e'] eqn:Er.
  - destruct (extract_all hrs) as [ds|e'']; [discriminate|].
    intros H; injection H as <-. now apply IH.
  - intros H; injection H as <-. eapply row_dict_raises; eauto.
Qed.

(** X1.  [get_ga_data] extracts all rows or none.  It returns exactly
    when every row of every report gives a mapping, and then returns one
    mapping per row, in the order of the reports and of their rows; when
    it raises, the exception is a [ValueError] or a [TypeError]. *)
Theorem get_ga_data_all_or_nothing :
  forall response : Response,
    (is_ok (get_ga_data response) = true <->
     forall header row,
       In (header, row) (all_rows response) ->
       is_ok (row_dict header row) = true) /\
    (forall report_ToList,
        get_ga_data response = Ok report_ToList ->
        Forall2 (fun hr dicts => row_dict (fst hr) (snd hr) = Ok dicts)
                (all_rows response) report_ToList /\
        List.length report_ToList = List.length (all_rows response)) /\
    (forall e,
        get_ga_data response = Raise e -> e = ValueError \/ e = TypeError).
Proof.
  intros response. rewrite get_ga_data_extract_all. split; [|split].
  - apply extract_all_ok_iff.
  - intros out H. pose proof (extract_all_ok _ _ H) as HF.
    split; [exact HF|]. symmetry. eapply Forall2_length; eauto.
  - apply extract_all_raises.
Qed.

(** X2.  When a row does not extract, [get_ga_data] raises that row's
    exception, provided the rows before it (earlier reports first) all
    extract; what comes after the row plays no part. *)
Theorem get_ga_data_first_failure :
  forall (response : Response) before header row after (e : exn),
    all_rows response = before ++ (header, row) :: after ->
    (forall h r, In (h, r) before -> is_ok (row_dict h r) = true) ->
    row_dict header row = Raise e ->
    get_ga_data response = Raise e.
Proof.
  intros response before header row after e Hall Hgood Hbad.
  rewrite get_ga_data_extract_all, Hall, extract_all_app.
  apply extract_all_ok_iff in Hgood.
  destruct (extract_all before) as [ds|e']; [|discriminate].
  simpl. now rewrite Hbad.
Qed.

Lemma keys_setitem k v d :
  Py.keys (Py.setitem k v d) = add_column (Py.keys d) k.
Proof.
  unfold add_column, Py.keys.
  induction d as [|[k0 v0] d IH]; simpl; [reflexivity|].
  rewrite (String.eqb_sym k k0).
  destruct (String.eqb k0 k) eqn:E; simpl.
  - apply String.eqb_eq in E. now subst.
  - rewrite IH. destruct (existsb (String.eqb k) (map fst d)); reflexivity.
Qed.

Lemma fill_dimensions_keys pairs : forall d,
  Py.keys (fill_dimensions pairs d) =
  fold_left add_column (map fst pairs) (Py.keys d).
Proof.
  induction pairs as [|[h s] pairs IH]; intros d; simpl; [reflexivity|].
  now rewrite IH, keys_setitem.
Qed.

Lemma fill_metrics_keys pairs : forall d d',
  fill_metrics pairs d = Ok d' ->
  Py.keys d' = fold_left add_column (pair_keys pairs) (Py.keys d).
Proof.
  induction pairs as [|[mh v] pairs IH]; intros d d' H; simpl in *.
  - now injection H as <-.
  - destruct (convert v) as [x|e]; [|discriminate].
    now rewrite (IH _ _ H), keys_setitem.
Qed.

Lemma fill_date_ranges_keys mhs sets : forall d d',
  fill_date_ranges mhs sets d = Ok d' ->
  Py.keys d' = fold_left add_column (flat_map (metric_keys mhs) sets) (Py.keys d).
Proof.
  induction sets as [|vs sets IH]; intros d d' H; simpl in *.
  - now injection H as <-.
  - unfold metric_keys at 1.
    destruct (values vs) as [strings|]; [|discriminate].
    destruct (fill_metrics (combine mhs strings) d) as [d1|e] eqn:Em; [|discriminate].
    rewrite fold_left_app, (IH _ _ H). f_equal.
    now apply fill_metrics_keys.
Qed.

Lemma add_column_In cols k x :
  In x (add_column cols k) <-> In x cols \/ x = k.
Proof.
  unfold add_column.
  destruct (existsb (String.eqb k) cols) eqn:E.
  - split; [now left|]. intros [H| ->]; [assumption|].
    apply existsb_exists in E. destruct E as (y & Hy & Ey).
    apply String.eqb_eq in Ey. now subst.
  - rewrite in_app_iff. simpl. intuition congruence.
Qed.

Lemma add_column_NoDup cols k : NoDup cols -> NoDup (add_column cols k).
Proof.
  intros ND. unfold add_column.
  destruct (existsb (String.eqb k) cols) eqn:E; [assumption|].
  apply NoDup_app; [assumption|repeat constructor; intros []|].
  intros a Ha [<-|[]].
  assert (existsb (String.eqb k) cols = true); [|congruence].
  apply existsb_exists. exists k. split; [assumption|apply String.eqb_refl].
Qed.

Lemma fold_add_column_NoDup l : forall cols,
  NoDup cols -> NoDup (fold_left add_column l cols).
Proof.
  induction l as [|k l IH]; intros cols ND; simpl; [assumption|].
  apply IH, add_column_NoDup, ND.
Qed.

Lemma fold_add_column_In l : forall cols x,
  In x (fold_left add_column l cols) <-> In x cols \/ In x l.
Proof.
  induction l as [|k l IH]; intros cols x; simpl; [tauto|].
  rewrite IH, add_column_In. intuition.
Qed.

Lemma fold_add_column_fresh l : forall cols,
  NoDup (cols ++ l) -> fold_left add_column l cols = cols ++ l.
Proof.
  induction l as [|k l IH]; intros cols ND; simpl.
  - now rewrite app_nil_r.
  - assert (Hk : existsb (String.eqb k) cols = false).
    { destruct (existsb (String.eqb k) cols) eqn:E; [|reflexivity].
      apply existsb_exists in E. destruct E as (y & Hy & Ey).
      apply String.eqb_eq in Ey. subst y.
      apply NoDup_remove_2 in ND. destruct ND.
      apply in_or_app. now left. }
    unfold add_column at 2. rewrite Hk.
    rewrite IH; rewrite <- app_assoc; [reflexivity|exact ND].
Qed.

Lemma keys_written_headers header row x :
  In x (keys_written header row) ->
  In x (dimensionHeaders header ++ map name (metricHeaderEntries header)).
Proof.
  unfold keys_written, dimension_keys. rewrite !in_app_iff.
  intros [H|H].
  - left. apply in_map_iff in H. destruct H as ([h s] & <- & Hin).
    eapply in_combine_l; eauto.
  - right. apply in_flat_map in H. destruct H as (vs & _ & Hin).
    rewrite metric_keys_prefix in Hin.
    eapply (In_firstn_le _ _ (List.length (map name (metricHeaderEntries header)))) in Hin.
    + now rewrite firstn_all in Hin.
    + rewrite metric_keys_prefix, length_firstn. lia.
Qed.

(** X3.  The keys of a row's mapping are the keys assigned while the row
    is built, each once, in the order of their first assignment: no key
    occurs twice, and there are at most as many keys as the report has
    dimension and metric headers.  When no key is assigned twice, the keys
    are exactly the paired dimension headers followed by the paired metric
    names. *)
Theorem row_dict_keys :
  forall (header : ColumnHeader) (row : ReportRow) (dicts : Py.dict),
    row_dict header row = Ok dicts ->
    Py.keys dicts = fold_left add_column (keys_written header row) [] /\
    NoDup (Py.keys dicts) /\
    (NoDup (keys_written header row) ->
     Py.keys dicts = keys_written header row) /\
    (List.length (Py.keys dicts) <=
     List.length (dimensionHeaders header) +
     List.length (metricHeaderEntries header))%nat.
Proof.
  intros header row dicts H.
  assert (E : Py.keys dicts = fold_left add_column (keys_written header row) []).
  { unfold row_dict in H. rewrite (fill_date_ranges_keys _ _ _ _ H).
    rewrite fill_dimensions_keys. unfold keys_written, dimension_keys.
    now rewrite fold_left_app. }
  assert (ND : NoDup (Py.keys dicts)).
  { rewrite E. apply fold_add_column_NoDup. constructor. }
  repeat split; [exact E|exact ND| |].
  - intros NDw. rewrite E. now apply (fold_add_column_fresh _ []).
  - rewrite <- (length_map name), <- length_app.
    apply NoDup_incl_length; [exact ND|].
    intros x Hx. rewrite E in Hx. apply fold_add_column_In in Hx.
    destruct Hx as [[]|Hx]. now apply (keys_written_headers header row).
Qed.

(** X4.  A date range without ['values'] makes the row raise [TypeError],
    when the date ranges before it are complete and convert. *)
Theorem date_range_without_values_raises :
  forall (header : ColumnHeader) (row : ReportRow) before vs after,
    metrics row = before ++ vs :: after ->
    values vs = None ->
    (forall g, In g before -> range_converts (metricHeaderEntries header) g) ->
    row_dict header row = Raise TypeError.
Proof.
  intros header row before vs after Hm Hv Hgood.
  unfold row_dict. rewrite Hm, fill_date_ranges_app.
  match goal with |- context [fill_date_ranges ?m before ?d] =>
    pose proof (proj2 (fill_date_ranges_ok_iff m before d) Hgood) as Hok;
    destruct (fill_date_ranges m before d) as [d1|e] end; [|discriminate].
  simpl. now rewrite Hv.
Qed.

(** ** The last assignment to a key *)

Lemma last_assigned_app {A} key (l1 l2 : list (string * A)) :
  last_assigned key (l1 ++ l2) =
  match last_assigned key l2 with
  | Some x => Some x
  | None => last_assigned key l1
  end.
Proof.
  induction l1 as [|[k v] l1 IH]; simpl.
  - now destruct (last_assigned key l2).
  - rewrite IH. destruct (last_assigned key l2); reflexivity.
Qed.

Lemma fill_dimensions_last pairs : forall d key,
  option_map Ok (Py.get key (fill_dimensions pairs d)) =
  match last_assigned key (map (fun p => (fst p, Ok (Py.Str (snd p)))) pairs) with
  | Some r => Some r
  | None => option_map Ok (Py.get key d)
  end.
Proof.
  induction pairs as [|[h s] pairs IH]; intros d key; simpl; [reflexivity|].
  rewrite IH, get_setitem.
  destruct (last_assigned key _); [reflexivity|].
  destruct (String.eqb h key); reflexivity.
Qed.

Lemma fill_metrics_last pairs : forall d d' key,
  fill_metrics pairs d = Ok d' ->
  option_map Ok (Py.get key d') =
  match last_assigned key
          (map (fun p => (name (fst p), convert (snd p))) pairs) with
  | Some r => Some r
  | None => option_map Ok (Py.get key d)
  end.
Proof.
  induction pairs as [|[mh v] pairs IH]; intros d d' key H; simpl in *.
  - now injection H as <-.
  - destruct (convert v) as [x|e] eqn:Ec; [|discriminate].
    rewrite (IH _ _ key H), get_setitem.
    destruct (last_assigned key _); [reflexivity|].
    destruct (String.eqb (name mh) key); reflexivity.
Qed.

Lemma fill_date_ranges_last mhs sets : forall d d' key,
  fill_date_ranges mhs sets d = Ok d' ->
  option_map Ok (Py.get key d') =
  match last_assigned key (flat_map (metric_writes mhs) sets) with
  | Some r => Some r
  | None => option_map Ok (Py.get key d)
  end.
Proof.
  induction sets as [|vs sets IH]; intros d d' key H; simpl in *.
  - now injection H as <-.
  - unfold metric_writes at 1.
    destruct (values vs) as [strings|]; [|discriminate].
    destruct (fill_metrics (combine mhs strings) d) as [d1|e] eqn:Em; [|discriminate].
    rewrite last_assigned_app, (IH _ _ key H).
    destruct (last_assigned key (flat_map (metric_writes mhs) sets));
      [reflexivity|].
    now apply fill_metrics_last.
Qed.

(** X5.  In a row's mapping the last assignment to a key wins: the value
    under a key is the one of the last assignment to that key among the
    dimension assignments followed by the metric assignments of each date
    range, and a key never assigned is absent. *)
Theorem row_dict_last_assignment_wins :
  forall (header : ColumnHeader) (row : ReportRow) (dicts : Py.dict),
    row_dict header row = Ok dicts ->
    forall key,
      option_map Ok (Py.get key dicts) =
      last_assigned key (row_writes header row).
Proof.
  intros header row dicts H key. unfold row_dict in H.
  unfold row_writes. rewrite last_assigned_app.
  rewrite (fill_date_ranges_last _ _ _ _ key H).
  destruct (last_assigned key (flat_map _ _)); [reflexivity|].
  rewrite fill_dimensions_last. simpl.
  now destruct (last_assigned key _).
Qed.


(** ** Integers written by [str] *)

Lemma digits_tail_digit c x l acc cnt :
  Py.digit c = Some x ->
  Py.digits_tail (c :: l) acc cnt = Py.digits_tail l (10 * acc + x)%N (S cnt).
Proof. intros H. cbn [Py.digits_tail]. now rewrite H. Qed.

Lemma digits_tail_numeral d : forall acc cnt,
  exists cnt',
    Py.digits_tail (numeral d) acc cnt = (numeral_value d acc, cnt', []).
Proof.
  unfold numeral.
  induction d; intros acc cnt;
    cbn [NilEmpty.string_of_uint list_ascii_of_string numeral_value];
    try (erewrite digits_tail_digit by reflexivity; apply IHd).
  eexists. reflexivity.
Qed.

Lemma numeral_value_acc d : forall p,
  numeral_value d (N.pos p) = N.pos (Pos.of_uint_acc d p).
Proof.
  induction d; intros p; cbn [numeral_value Pos.of_uint_acc];
    try (rewrite <- IHd; f_equal; lia).
  reflexivity.
Qed.

Lemma numeral_value_of_uint d : numeral_value d 0 = Pos.of_uint d.
Proof.
  induction d; cbn [numeral_value Pos.of_uint];
    try (apply numeral_value_acc).
  - reflexivity.
  - exact IHd.
Qed.

Lemma digit_not_space c x : Py.digit c = Some x -> Py.is_space c = false.
Proof.
  destruct c as [[|] [|] [|] [|] [|] [|] [|] [|]]; vm_compute; congruence.
Qed.

Lemma numeral_char_not_space c : numeral_char c -> Py.is_space c = false.
Proof.
  intros [(x & H)| ->]; [eapply digit_not_space; eauto|reflexivity].
Qed.

Lemma lstrip_numeral l : Forall numeral_char l -> Py.lstrip l = l.
Proof.
  destruct l as [|c l]; [reflexivity|].
  intros H. inversion H as [|? ? Hc _]; subst. simpl.
  now rewrite (numeral_char_not_space _ Hc).
Qed.

Lemma strip_numeral l : Forall numeral_char l -> Py.strip l = l.
Proof.
  intros H. unfold Py.strip.
  rewrite (lstrip_numeral l H), lstrip_numeral, rev_involutive; [reflexivity|].
  now apply Forall_rev.
Qed.

Lemma numeral_chars d : Forall numeral_char (numeral d).
Proof.
  unfold numeral, numeral_char.
  induction d; cbn [NilEmpty.string_of_uint list_ascii_of_string];
    constructor; try assumption; left; eexists; reflexivity.
Qed.

Lemma digitpart_digit c x l :
  Py.digit c = Some x ->
  Py.digitpart (c :: l) = Some (Py.digits_tail (c :: l) 0 0).
Proof.
  intros H. unfold Py.digitpart.
  rewrite (digits_tail_digit c x l 0 0 H), H. reflexivity.
Qed.

Lemma numeral_digits d :
  Forall (fun c => exists x, Py.digit c = Some x) (numeral d).
Proof.
  unfold numeral.
  induction d; cbn [NilEmpty.string_of_uint list_ascii_of_string];
    constructor; try assumption; eexists; reflexivity.
Qed.

Lemma digitpart_numeral d :
  d <> Decimal.Nil ->
  exists cnt, Py.digitpart (numeral d) = Some (Pos.of_uint d, cnt, []).
Proof.
  intros Hd. rewrite <- numeral_value_of_uint.
  destruct (digits_tail_numeral d 0 0) as (cnt & E).
  exists cnt. rewrite <- E.
  pose proof (numeral_digits d) as Hc.
  destruct (numeral d) as [|c l] eqn:En.
  - destruct d; try discriminate En. now contradiction Hd.
  - inversion Hc as [|? ? (x & Hx) _]; subst.
    now apply (digitpart_digit c x).
Qed.

Lemma int_numeral (neg : bool) (d : Decimal.uint) :
  d <> Decimal.Nil ->
  Py.int (string_of_list_ascii
            ((if neg then ["-"%char] else []) ++ numeral d)) =
  Some (if neg then - Z.of_N (Pos.of_uint d) else Z.of_N (Pos.of_uint d)).
Proof.
  intros Hd. unfold Py.int.
  rewrite list_ascii_of_string_of_list_ascii.
  rewrite strip_numeral.
  2:{ apply Forall_app. split; [|apply numeral_chars].
      destruct neg; [constructor; [now right|constructor]|constructor]. }
  destruct (digitpart_numeral d Hd) as (cnt & E).
  destruct neg.
  - simpl. now rewrite E.
  - simpl app.
    pose proof (numeral_digits d) as Hc.
    destruct (numeral d) as [|c l] eqn:En.
    + destruct d; try discriminate En. now contradiction Hd.
    + inversion Hc as [|? ? (x & Hx) _]; subst.
      assert (Hs : Py.sign (c :: l) = (false, c :: l)).
      { unfold Py.sign.
        destruct (Ascii.eqb c "-") eqn:E1;
          [apply Ascii.eqb_eq in E1; subst c; discriminate Hx|].
        destruct (Ascii.eqb c "+") eqn:E2;
          [apply Ascii.eqb_eq in E2; subst c; discriminate Hx|].
        reflexivity. }
      rewrite Hs, E. reflexivity.
Qed.

Lemma str_as_numeral z :
  exists (neg : bool) (d : Decimal.uint),
    d <> Decimal.Nil /\
    Py.str z = string_of_list_ascii
                 ((if neg then ["-"%char] else []) ++ numeral d) /\
    z = (if neg then - Z.of_N (Pos.of_uint d) else Z.of_N (Pos.of_uint d)).
Proof.
  unfold Py.str, numeral.
  destruct z as [|p|p].
  - exists false, (Decimal.D0 Decimal.Nil). repeat split; discriminate || reflexivity.
  - exists false, (Pos.to_uint p).
    pose proof (DecimalPos.Unsigned.to_uint_nonnil p) as Hn.
    split; [exact Hn|]. split.
    + simpl. rewrite string_of_list_ascii_of_string.
      destruct (Pos.to_uint p); try reflexivity. now contradiction Hn.
    + now rewrite DecimalPos.Unsigned.of_to.
  - exists true, (Pos.to_uint p).
    pose proof (DecimalPos.Unsigned.to_uint_nonnil p) as Hn.
    split; [exact Hn|]. split.
    + simpl. rewrite string_of_list_ascii_of_string.
      destruct (Pos.to_uint p); try reflexivity. now contradiction Hn.
    + now rewrite DecimalPos.Unsigned.of_to.
Qed.

Lemma int_str z : Py.int (Py.str z) = Some z.
Proof.
  destruct (str_as_numeral z) as (neg & d & Hd & -> & Ez).
  rewrite (int_numeral neg d Hd). now rewrite <- Ez.
Qed.

Lemma contains_char_list c l :
  Py.contains_char c (string_of_list_ascii l) = existsb (fun a => Ascii.eqb a c) l.
Proof. induction l as [|a l IH]; simpl; [reflexivity|now rewrite IH]. Qed.

Lemma str_not_float_like z : float_like (Py.str z) = false.
Proof.
  destruct (str_as_numeral z) as (neg & d & _ & -> & _).
  unfold float_like. rewrite !contains_char_list.
  apply orb_false_iff.
  assert (H : forall c, Py.digit c = None -> c <> "-"%char ->
            existsb (fun a => Ascii.eqb a c)
              ((if neg then ["-"%char] else []) ++ numeral d) = false).
  { intros c Hdig Hminus.
    destruct (existsb _ _) eqn:E; [|reflexivity].
    apply existsb_exists in E. destruct E as (a & Hin & Ea).
    apply Ascii.eqb_eq in Ea. subst a.
    apply in_app_or in Hin. destruct Hin as [Hin|Hin].
    - destruct neg; [|contradiction]. destruct Hin as [<-|[]]. now contradiction Hminus.
    - pose proof (numeral_digits d) as F. rewrite Forall_forall in F.
      destruct (F _ Hin) as (x & Hx). congruence. }
  split; apply H; reflexivity || discriminate.
Qed.


(** ** The table of uniform rows, and the catalog *)

Lemma member_set_member key key' value members :
  member key (set_member key' value members) =
  if String.eqb key' key then Some value else member key members.
Proof.
  induction members as [|[k v] members IH]; simpl.
  - reflexivity.
  - destruct (String.eqb k key') eqn:E0; simpl.
    + apply String.eqb_eq in E0; subst k.
      destruct (String.eqb key' key); reflexivity.
    + destruct (String.eqb k key) eqn:E1; [|exact IH].
      apply String.eqb_eq in E1; subst k.
      now rewrite String.eqb_sym, E0.
Qed.

(** X7.  Once the file is read, [load_dimensions_and_metrics] returns
    exactly when the document is an object whose entry for the category is
    an object with the entries ['dimensions'] and ['metrics'], and it
    returns those two entries as they are; otherwise it raises [KeyError]
    or [TypeError]; and the entries of the other categories play no
    part. *)
Theorem load_dimensions_and_metrics_result :
  forall (read_json : string -> result json) (file_path datatype : string)
         (document : json),
    read_json file_path = Ok document ->
    (forall dimensions metrics,
        load_dimensions_and_metrics read_json file_path datatype =
          Ok (dimensions, metrics) <->
        exists members category,
          document = JObject members /\
          member datatype members = Some (JObject category) /\
          member "dimensions" category = Some dimensions /\
          member "metrics" category = Some metrics) /\
    (forall e,
        load_dimensions_and_metrics read_json file_path datatype = Raise e ->
        e = KeyError \/ e = TypeError) /\
    (forall members other value,
        document = JObject members -> other <> datatype ->
        load_dimensions_and_metrics
          (fun _ => Ok (JObject (set_member other value members)))
          file_path datatype =
        load_dimensions_and_metrics read_json file_path datatype).
Proof.
  intros read_json file_path datatype document Hread.
  unfold load_dimensions_and_metrics. rewrite Hread. repeat split.
  - destruct document as [| | | | |members]; try discriminate. simpl.
    destruct (member datatype members) as [category|] eqn:Ec; [|discriminate].
    destruct category as [| | | | |cat]; try discriminate. simpl.
    destruct (member "dimensions" cat) as [d|] eqn:Ed; [|discriminate].
    destruct (member "metrics" cat) as [m|] eqn:Em; [|discriminate].
    intros H. injection H as <- <-. exists members, cat. auto.
  - intros (members & cat & -> & Hc & Hd & Hm). simpl.
    rewrite Hc. simpl. now rewrite Hd, Hm.
  - intros e.
    destruct document as [| | | | |members]; simpl;
      try (intros H; injection H as <-; now right).
    destruct (member datatype members) as [category|];
      [|intros H; injection H as <-; now left].
    destruct category as [| | | | |cat]; simpl;
      try (intros H; injection H as <-; now right).
    destruct (member "dimensions" cat); [|intros H; injection H as <-; now left].
    destruct (member "metrics" cat); [discriminate|].
    intros H; injection H as <-; now left.
  - intros members other value -> Hne. simpl.
    rewrite member_set_member.
    destruct (String.eqb other datatype) eqn:E;
      [apply String.eqb_eq in E; contradiction|reflexivity].
Qed.

Lemma get_of_key k d : In k (Py.keys d) -> filled (Py.get k d).
Proof.
  unfold filled, Py.keys.
  induction d as [|[k0 v0] d IH]; simpl; [tauto|].
  intros [->|Hin].
  - now rewrite String.eqb_refl.
  - destruct (String.eqb k0 k); [discriminate|auto].
Qed.

Lemma add_column_present cols k : In k cols -> add_column cols k = cols.
Proof.
  intros H. unfold add_column.
  assert (E : existsb (String.eqb k) cols = true).
  { apply existsb_exists. exists k. split; [assumption|apply String.eqb_refl]. }
  now rewrite E.
Qed.

Lemma fold_add_column_present l : forall cols,
  (forall k, In k l -> In k cols) -> fold_left add_column l cols = cols.
Proof.
  induction l as [|k l IH]; intros cols H; simpl; [reflexivity|].
  rewrite add_column_present by (apply H; now left).
  apply IH. intros k' Hk'. apply H. now right.
Qed.

Lemma fold_add_column_new l : NoDup l -> fold_left add_column l [] = l.
Proof. intros ND. now apply (fold_add_column_fresh l []). Qed.

Lemma union_keys_same rs K :
  rs <> [] -> (forall d, In d rs -> Py.keys d = K) -> NoDup K ->
  union_keys rs = K.
Proof.
  intros Hne Hsame ND. unfold union_keys.
  destruct rs as [|d rs]; [now contradiction Hne|]. simpl.
  rewrite (Hsame d (or_introl eq_refl)), (fold_add_column_new K ND).
  assert (G : forall rs, (forall d, In d rs -> Py.keys d = K) ->
            fold_left (fun cols d => fold_left add_column (Py.keys d) cols) rs K = K).
  { clear. induction rs as [|d rs IH]; intros H; simpl; [reflexivity|].
    rewrite (H d (or_introl eq_refl)), fold_add_column_present by auto.
    apply IH. intros d' Hd'. apply H. now right. }
  apply G. intros d' Hd'. apply Hsame. now right.
Qed.

(** X8.  When the rows assembled all have the same keys, the table's
    columns are those keys, stripped, in their order; the table has one row
    of cells per row assembled, each as wide as the columns, and no cell is
    empty. *)
Theorem table_of_uniform_rows :
  forall (completeData : list Py.dict) (K : list string),
    completeData <> [] ->
    (forall dicts, In dicts completeData -> Py.keys dicts = K) ->
    NoDup K ->
    let df := strip_columns (pd_DataFrame completeData) in
    columns df = map strip_ga K /\
    List.length (cells df) = List.length completeData /\
    Forall (fun cells_of_row =>
              List.length cells_of_row = List.length (columns df) /\
              Forall filled cells_of_row)
           (cells df).
Proof.
  intros rs K Hne Hsame ND df. unfold df, strip_columns, pd_DataFrame. simpl.
  rewrite (union_keys_same rs K Hne Hsame ND).
  split; [reflexivity|]. split; [apply length_map|].
  apply Forall_forall. intros r Hr.
  apply in_map_iff in Hr. destruct Hr as (d & <- & Hd).
  split; [now rewrite !length_map|].
  apply Forall_forall. intros c Hc.
  apply in_map_iff in Hc. destruct Hc as (k & <- & Hk).
  apply get_of_key. now rewrite (Hsame d Hd).
Qed.

(** ** Pages, requests and retries *)

(** X9.  Unless a report of more than 100000 rows comes without a
    continuation token, the offsets tile the rows: every row index from 0
    to [rowCount - 1] lies in the page of exactly one offset.  No offset
    other than 0 lies beyond the rows. *)
Theorem offsets_tile_the_rows :
  forall (row_count : Z) (nextPageToken : option string),
    row_count <= 100000 \/ nextPageToken <> None ->
    (forall r, 0 <= r < row_count ->
       exists offset,
         In offset (offset_list row_count nextPageToken) /\
         offset <= r < offset + 100000 /\
         forall offset',
           In offset' (offset_list row_count nextPageToken) ->
           offset' <= r < offset' + 100000 -> offset' = offset) /\
    (forall offset,
       In offset (offset_list row_count nextPageToken) ->
       offset = 0 \/ 0 < offset < row_count).
Proof.
  intros rc tok Hcase.
  destruct (Z_le_gt_dec rc 100000) as [Hle|Hgt].
  - rewrite (offset_list_single rc tok (or_introl Hle)). split.
    + intros r Hr. exists 0. split; [now left|]. split; [lia|].
      intros o [<-|[]] _. reflexivity.
    + intros o [<-|[]]. now left.
  - destruct Hcase as [Hle|Htok]; [lia|].
    destruct tok as [token|]; [|contradiction].
    rewrite (offset_list_many rc token ltac:(lia)).
    pose proof (ceil_div_spec rc 100000 ltac:(lia)) as Hk.
    set (k := ceil_div rc 100000) in *.
    unfold page_offsets. split.
    + intros r Hr.
      pose proof (Z.div_mod r 100000 ltac:(lia)) as Ed.
      pose proof (Z.mod_pos_bound r 100000 ltac:(lia)) as Bd.
      set (q := r / 100000) in *. set (m := r mod 100000) in *.
      assert (Hq : 0 <= q < k) by nia.
      exists (100000 * q). split; [|split; [lia|]].
      * apply in_map_iff. exists (Z.to_nat q). split; [lia|].
        apply in_seq. lia.
      * intros o Ho Hor. apply in_map_iff in Ho.
        destruct Ho as (i & <- & _). nia.
    + intros o Ho. apply in_map_iff in Ho. destruct Ho as (i & <- & Hi).
      apply in_seq in Hi. destruct i as [|i]; [now left|right]. nia.
Qed.

Section MorePipelineProperties.

Variable VIEW_ID : string.
Variable execute : list ReportRequest -> ReportRequest -> result Response.
Variable random : nat -> Q.
Variables (startDate endDate : string).
Variables (dimensions : list Dimension) (metrics : list Metric).

Local Abbreviation request :=
  (report_request VIEW_ID startDate endDate dimensions metrics).
Local Abbreviation pages :=
  (fetch_pages VIEW_ID execute analyticsreporting_v4
     startDate endDate dimensions metrics).
Local Abbreviation assemble response := (
  get_response VIEW_ID execute analyticsreporting_v4 response
    startDate endDate dimensions metrics).
Local Abbreviation this_attempt :=
  (attempt VIEW_ID execute startDate endDate dimensions metrics).
Local Abbreviation service_answers :=
  (answers VIEW_ID execute startDate endDate dimensions metrics).
Local Abbreviation retry :=
  (retry_loop VIEW_ID execute random startDate endDate dimensions metrics).
Local Abbreviation failing :=
  (fail_and_back_off VIEW_ID execute random startDate endDate dimensions metrics).
Local Abbreviation wrapper :=
  (get_dataframes VIEW_ID execute random startDate endDate dimensions metrics).

(** X10.  [get_response] takes from the response it is given the row
    count, the sampling indicators and whether there is a continuation
    token, and that it extracts; its rows are not used.  Two first pages
    that agree on these give the same requests and the same result. *)
Theorem get_response_reads_only_the_metadata :
  forall (response response' : Response) (report0 report0' : Report)
         (rest rest' : list Report) (w : World),
    reports response = report0 :: rest ->
    reports response' = report0' :: rest' ->
    rowCount (data report0) = rowCount (data report0') ->
    sampled (data report0) = sampled (data report0') ->
    (nextPageToken report0 = None <-> nextPageToken report0' = None) ->
    is_ok (get_ga_data response) = true ->
    is_ok (get_ga_data response') = true ->
    assemble response w = assemble response' w.
Proof.
  intros r r' p p' rest rest' w Hr Hr' Hrc Hs Htok Hok Hok'.
  unfold get_response. rewrite Hr, Hr', Hrc, Hs.
  destruct (get_ga_data r); [|discriminate].
  destruct (get_ga_data r'); [|discriminate].
  destruct (rowCount (data p')) as [rc|]; [|reflexivity].
  destruct (sampled (data p')); [reflexivity|].
  assert (E : offset_list rc (nextPageToken p) = offset_list rc (nextPageToken p')).
  { unfold offset_list.
    destruct (nextPageToken p), (nextPageToken p'); try reflexivity.
    - discriminate (proj2 Htok eq_refl).
    - discriminate (proj1 Htok eq_refl). }
  now rewrite E.
Qed.

Lemma fetch_pages_fails done : forall page_rows token todo completeData w e,
  Forall2 page_of (service_answers (requests w) done) page_rows ->
  page_fails (execute (requests w ++ map request done) (request token)) e ->
  pages (done ++ token :: todo) completeData w =
  (Raise e, after_requests (map request (done ++ [token])) w).
Proof.
  induction done as [|t done IH]; intros page_rows token todo acc w e HF Hfail.
  - cbn [app map] in *. rewrite app_nil_r in Hfail.
    rewrite fetch_pages_cons.
    destruct Hfail as [->|(response & -> & ->)]; reflexivity.
  - cbn [answers] in HF.
    inversion HF as [|ans rows_ anss rowss Hpage HF']; subst.
    destruct Hpage as (response & Hans & Hrows).
    rewrite <- app_comm_cons, fetch_pages_cons, Hans, Hrows.
    rewrite (IH rowss token todo _ _ e); [|exact HF'|].
    + rewrite after_requests_app. reflexivity.
    + cbn [after_requests requests map app] in *.
      rewrite <- app_assoc. exact Hfail.
Qed.

(** X11.  When the request for one page of the loop fails, by an
    exception of the service or by a page that does not extract, after the
    pages before it were fetched and extracted, [get_response] raises that
    exception; the requests up to the failing one were sent, no later one
    is, and no table is returned. *)
Theorem get_response_page_failure :
  forall (response : Response) (report0 : Report) (rest : list Report)
         (row_count : Z) (w : World)
         (done : list string) (token : string) (todo : list string)
         (page_rows : list (list Py.dict)) (e : exn),
    reports response = report0 :: rest ->
    rowCount (data report0) = Some row_count ->
    sampled (data report0) = false ->
    is_ok (get_ga_data response) = true ->
    map Py.str (offset_list row_count (nextPageToken report0)) =
      done ++ token :: todo ->
    Forall2 page_of (service_answers (requests w) done) page_rows ->
    page_fails (execute (requests w ++ map request done) (request token)) e ->
    assemble response w =
      (Raise e, after_requests (map request (done ++ [token])) w).
Proof.
  intros response report0 rest rc w done token todo page_rows e
         Hrep Hrc Hsam Hok Htokens HF Hfail.
  unfold get_response. rewrite Hrep.
  destruct (get_ga_data response) as [first_rows|]; [|discriminate].
  rewrite Hrc, Hsam, Htokens. unfold bind.
  now rewrite (fetch_pages_fails done page_rows token todo [] w e HF Hfail).
Qed.

Lemma fetch_pages_sent tokens : forall completeData w,
  exists j, snd (pages tokens completeData w) =
            after_requests (map request (firstn j tokens)) w.
Proof.
  induction tokens as [|token tokens IH]; intros acc w.
  - exists 0%nat. simpl. now rewrite after_requests_nil.
  - rewrite fetch_pages_cons.
    destruct (execute (requests w) (request token)) as [response|e];
      [|exists 1%nat; reflexivity].
    destruct (get_ga_data response) as [rows_|e];
      [|exists 1%nat; reflexivity].
    destruct (IH (acc ++ rows_) (after_requests [request token] w)) as (j & E).
    exists (S j). rewrite E, after_requests_app. reflexivity.
Qed.

Lemma offset_list_is_pages row_count nextPageToken :
  exists k, offset_list row_count nextPageToken = page_offsets k.
Proof.
  unfold offset_list.
  destruct ((100000 <? row_count) &&
            match nextPageToken with Some _ => true | None => false end).
  - eexists. rewrite offsets_loop_spec. reflexivity.
  - exists 1%nat. reflexivity.
Qed.

Lemma page_offsets_tokens k : Forall offset_token (map Py.str (page_offsets k)).
Proof.
  unfold page_offsets. rewrite map_map. apply Forall_forall.
  intros t Ht. apply in_map_iff in Ht. destruct Ht as (i & <- & _).
  now exists i.
Qed.

Lemma Forall_firstn {A} (P : A -> Prop) l : forall j,
  Forall P l -> Forall P (firstn j l).
Proof.
  induction l as [|x l IH]; intros [|j] H; simpl; auto.
  inversion H; subst. constructor; auto.
Qed.

Lemma get_response_sent response w :
  exists sent,
    snd (assemble response w) = after_requests (map request sent) w /\
    Forall offset_token sent.
Proof.
  assert (Same : exists sent,
             w = after_requests (map request sent) w /\ Forall offset_token sent).
  { exists []. simpl. now rewrite after_requests_nil. }
  unfold get_response.
  destruct (reports response) as [|report0 rest]; [exact Same|].
  destruct (get_ga_data response) as [rows_|e]; [|exact Same].
  destruct (rowCount (data report0)) as [rc|]; [|exact Same].
  destruct (sampled (data report0)); [exact Same|].
  unfold bind.
  destruct (offset_list_is_pages rc (nextPageToken report0)) as (k & ->).
  destruct (fetch_pages_sent (map Py.str (page_offsets k)) [] w) as (j & E).
  exists (firstn j (map Py.str (page_offsets k))). split.
  - destruct (pages (map Py.str (page_offsets k)) [] w) as [[cd|e] w'];
      exact E.
  - apply Forall_firstn, page_offsets_tokens.
Qed.

Lemma attempt_sent w :
  exists sent,
    snd (this_attempt w) =
      after_requests (map request ("0" :: sent)) (after_build w) /\
    Forall offset_token sent.
Proof.
  rewrite attempt_eq. cbv zeta. fold (after_build w).
  destruct (execute (requests w) (request "0")) as [response|e].
  - destruct (get_response_sent response
                (after_requests [request "0"] (after_build w))) as (sent & E & F).
    exists sent. split; [|exact F].
    rewrite E, after_requests_app. reflexivity.
  - exists []. split; [reflexivity|constructor].
Qed.

Lemma retry_loop_sent ns : forall w,
  exists tokens,
    requests (snd (retry ns w)) = requests w ++ map request tokens /\
    Forall offset_token tokens /\
    (ns <> [] -> exists more, tokens = "0" :: more).
Proof.
  induction ns as [|n ns IH]; intros w.
  - exists []. simpl. rewrite app_nil_r. repeat split; [constructor|].
    intros H. now contradiction H.
  - rewrite retry_loop_cons.
    destruct (attempt_sent w) as (sent & E & F).
    assert (Z0 : offset_token "0") by (now exists 0%nat).
    assert (Here : exists tokens,
               requests (snd (this_attempt w)) = requests w ++ map request tokens /\
               Forall offset_token tokens /\
               (n :: ns <> [] -> exists more, tokens = "0" :: more)).
    { exists ("0" :: sent). rewrite E. repeat split; [constructor; auto|eauto]. }
    destruct (this_attempt w) as [[df|e] w1]; [exact Here|].
    destruct e; try exact Here.
    destruct (retryable reason); [|exact Here].
    destruct (IH (snd (backoff random n w1))) as (tokens & R & FT & _).
    change (requests (snd (backoff random n w1))) with (requests w1) in R.
    simpl in E.
    exists (("0" :: sent) ++ tokens). repeat split.
    + rewrite R, E. unfold after_requests, after_build. simpl.
      now rewrite map_app, <- !app_assoc.
    + apply Forall_app. split; [constructor; auto|exact FT].
    + intros _. now exists (sent ++ tokens).
Qed.

(** X12.  Whatever happens, every request [get_dataframes] sends is the
    request of the query it was given (view, date range, dimensions,
    metrics, sampling level LARGE, page size 100000) for a page token that
    is the decimal string of a multiple of 100000, and the first request is
    for token ["0"]. *)
Theorem get_dataframes_requests :
  forall w : World,
    exists more,
      requests (snd (wrapper w)) = requests w ++ map request ("0" :: more) /\
      Forall offset_token more /\
      Forall (fun body =>
                viewId body = VIEW_ID /\
                dateRanges body = [(startDate, endDate)] /\
                requestDimensions body = [dimensions] /\
                requestMetrics body = [metrics] /\
                samplingLevel body = "LARGE" /\
                pageSize body = 100000)
             (map request ("0" :: more)).
Proof.
  intros w.
  destruct (retry_loop_sent (seq 0 5) w) as (tokens & R & F & H0).
  destruct H0 as (more & ->); [discriminate|].
  exists more. split; [exact R|]. split; [now inversion F|].
  apply Forall_forall. intros body Hb.
  apply in_map_iff in Hb. destruct Hb as (token & <- & _).
  repeat split.
Qed.

Lemma retry_loop_outcome ns : forall w r w',
  retry ns w = (r, w') ->
  exists k wk,
    (k <= List.length ns)%nat /\
    failing (firstn k ns) w = Some wk /\
    match r with
    | Ok (Some df) =>
        (k < List.length ns)%nat /\ this_attempt wk = (Ok df, w')
    | Ok None =>
        (k = List.length ns /\ w' = wk) \/
        ((k < List.length ns)%nat /\
         exists reason,
           this_attempt wk = (Raise (HTTPError reason), w') /\
           retryable reason = false)
    | Raise e =>
        (k < List.length ns)%nat /\ this_attempt wk = (Raise e, w') /\
        forall reason, e <> HTTPError reason
    end.
Proof.
  induction ns as [|n ns IH]; intros w r w' H.
  - simpl in H. injection H as <- <-.
    exists 0%nat, w. repeat split; auto.
  - rewrite retry_loop_cons in H.
    destruct (this_attempt w) as [[df|e] w1] eqn:Ha.
    + injection H as <- <-. exists 0%nat, w. simpl.
      repeat split; auto; lia.
    + assert (Other : (forall reason, e <> HTTPError reason) ->
                      (Raise e, w1) = (r, w') ->
                      exists k wk,
                        (k <= List.length (n :: ns))%nat /\
                        failing (firstn k (n :: ns)) w = Some wk /\
                        match r with
                        | Ok (Some df) =>
                            (k < List.length (n :: ns))%nat /\
                            this_attempt wk = (Ok df, w')
                        | Ok None =>
                            (k = List.length (n :: ns) /\ w' = wk) \/
                            ((k < List.length (n :: ns))%nat /\
                             exists reason,
                               this_attempt wk = (Raise (HTTPError reason), w') /\
                               retryable reason = false)
                        | Raise e =>
                            (k < List.length (n :: ns))%nat /\
                            this_attempt wk = (Raise e, w') /\
                            forall reason, e <> HTTPError reason
                        end).
      { intros Hne E. injection E as <- <-. exists 0%nat, w. simpl.
        repeat split; auto; lia. }
      destruct e; try (apply Other; [discriminate|exact H]).
      destruct (retryable reason) eqn:Hr.
      * destruct (IH _ _ _ H) as (k & wk & Hk & Hf & Hcase).
        exists (S k), wk. cbn [firstn fail_and_back_off List.length].
        rewrite Ha, Hr. split; [lia|]. split; [exact Hf|].
        destruct r as [[df|]|e].
        -- destruct Hcase. split; [lia|assumption].
        -- destruct Hcase as [[-> ->]|[Hlt Hx]]; [left; auto|right].
           split; [lia|exact Hx].
        -- destruct Hcase as (Hlt & Hx). split; [lia|exact Hx].
      * injection H as <- <-. exists 0%nat, w. simpl.
        split; [lia|]. split; [reflexivity|]. right.
        split; [lia|]. eauto.
Qed.

Lemma seq_split k :
  (k < 5)%nat -> seq 0 5 = seq 0 k ++ k :: seq (S k) (4 - k).
Proof.
  intros H.
  destruct k as [|[|[|[|[|k]]]]]; try reflexivity; lia.
Qed.


Lemma backoff_sum_bound :
  (forall d, (0 <= random d)%Q /\ (random d < 1)%Q) ->
  forall k d, (k <= 5)%nat ->
    (Qsum (backoff_durations random (seq 0 k) d) < 36)%Q.
Proof.
  intros Hrand k d Hk.
  pose proof (Hrand d) as H0. pose proof (Hrand (S d)) as H1.
  pose proof (Hrand (S (S d))) as H2. pose proof (Hrand (S (S (S d)))) as H3.
  pose proof (Hrand (S (S (S (S d))))) as H4.
  destruct k as [|[|[|[|[|[|k]]]]]]; try lia;
    cbn [seq backoff_durations Qsum fold_right];
    change (2 ^ Z.of_nat 0) with 1; change (2 ^ Z.of_nat 1) with 2;
    change (2 ^ Z.of_nat 2) with 4; change (2 ^ Z.of_nat 3) with 8;
    change (2 ^ Z.of_nat 4) with 16;
    unfold inject_Z; lra.
Qed.


(** X15.  A sampled first page ends [get_dataframes] at once: it raises
    [SampledDataError] after one request and one build of the service
    object, without sleep or second attempt. *)
Theorem sampled_report_is_not_retried :
  forall (w : World) (response : Response) (report0 : Report)
         (rest : list Report),
    execute (requests w) (request "0") = Ok response ->
    reports response = report0 :: rest ->
    sampled (data report0) = true ->
    is_ok (get_ga_data response) = true ->
    rowCount (data report0) <> None ->
    wrapper w =
      (Raise SampledDataError, after_requests [request "0"] (after_build w)).
Proof.
  intros w response report0 rest Hex Hrep Hsam Hok Hrc.
  unfold get_dataframes. cbn [seq]. rewrite retry_loop_cons, attempt_eq.
  cbv zeta. rewrite Hex. unfold get_response. rewrite Hrep.
  destruct (get_ga_data response); [|discriminate].
  destruct (rowCount (data report0)); [|now contradiction Hrc].
  rewrite Hsam. reflexivity.
Qed.

(** X16.  A first page that cannot be used ends [get_dataframes] at once,
    after one request and without retry: [IndexError] when the response
    has no report, [TypeError] when the first report has no row count, and
    the exception of the extraction when a row does not extract. *)
Theorem malformed_first_page_is_not_retried :
  forall (w : World) (response : Response),
    execute (requests w) (request "0") = Ok response ->
    (reports response = [] ->
     wrapper w =
       (Raise IndexError, after_requests [request "0"] (after_build w))) /\
    (forall report0 rest,
        reports response = report0 :: rest ->
        is_ok (get_ga_data response) = true ->
        rowCount (data report0) = None ->
        wrapper w =
          (Raise TypeError, after_requests [request "0"] (after_build w))) /\
    (forall e,
        get_ga_data response = Raise e ->
        reports response <> [] ->
        wrapper w =
          (Raise e, after_requests [request "0"] (after_build w))).
Proof.
  intros w response Hex.
  assert (Run : wrapper w =
            match get_response VIEW_ID execute analyticsreporting_v4 response
                    startDate endDate dimensions metrics
                    (after_requests [request "0"] (after_build w)) with
            | (Ok df, w') => (Ok (Some df), w')
            | (Raise (HTTPError reason), w') =>
                if retryable reason
                then retry (seq 1 4) (snd (backoff random 0 w'))
                else (Ok None, w')
            | (Raise e, w') => (Raise e, w')
            end).
  { unfold get_dataframes. cbn [seq]. rewrite retry_loop_cons, attempt_eq.
    cbv zeta. now rewrite Hex. }
  rewrite Run. unfold get_response. repeat split.
  - intros ->. reflexivity.
  - intros report0 rest -> Hok Hrc.
    destruct (get_ga_data response); [|discriminate].
    now rewrite Hrc.
  - intros e He Hrep.
    destruct (reports response); [now contradiction Hrep|].
    rewrite He. unfold raise.
    rewrite get_ga_data_extract_all in He.
    destruct (extract_all_raises _ _ He) as [->| ->]; reflexivity.
Qed.

End MorePipelineProperties.

Section WrapperOverPages.

Variable VIEW_ID : string.
Variable execute : list ReportRequest -> ReportRequest -> result Response.
Variable random : nat -> Q.
Variables (startDate endDate : string).
Variables (dimensions : list Dimension) (metrics : list Metric).

Local Abbreviation request :=
  (report_request VIEW_ID startDate endDate dimensions metrics).
Local Abbreviation service_answers :=
  (answers VIEW_ID execute startDate endDate dimensions metrics).
Local Abbreviation wrapper :=
  (get_dataframes VIEW_ID execute random startDate endDate dimensions metrics).

(** X17.  When the first attempt meets no error, [get_dataframes] sends
    the request for token ["0"] twice, once for the first page and once as
    the first page of the loop, followed by the requests for the other
    offsets; the table is built from the pages of the loop alone. *)
Theorem get_dataframes_fetches_the_first_page_twice :
  forall (w : World) (response : Response) (report0 : Report)
         (rest : list Report) (row_count : Z)
         (page_rows : list (list Py.dict)),
    execute (requests w) (request "0") = Ok response ->
    reports response = report0 :: rest ->
    rowCount (data report0) = Some row_count ->
    sampled (data report0) = false ->
    is_ok (get_ga_data response) = true ->
    let tokens := map Py.str (offset_list row_count (nextPageToken report0)) in
    Forall2 page_of
            (service_answers (requests w ++ [request "0"]) tokens) page_rows ->
    wrapper w =
      (Ok (Some (strip_columns (pd_DataFrame (List.concat page_rows)))),
       after_requests (map request ("0" :: tokens))
         {| requests := requests w; builds := S (builds w);
            sleeps := sleeps w; draws := draws w |}) /\
    exists more, tokens = "0" :: more.
Proof.
  intros w response report0 rest rc page_rows Hex Hrep Hrc Hsam Hok tokens HF.
  split.
  - unfold get_dataframes. cbn [seq]. rewrite retry_loop_cons, attempt_eq.
    cbv zeta. rewrite Hex. unfold get_response. rewrite Hrep.
    destruct (get_ga_data response); [|discriminate].
    rewrite Hrc, Hsam. unfold bind. fold tokens.
    rewrite (fetch_pages_spec VIEW_ID execute startDate endDate dimensions
               metrics tokens page_rows); [|exact HF].
    rewrite after_requests_app. reflexivity.
  - unfold tokens, offset_list.
    destruct ((100000 <? rc) && _) eqn:E.
    + apply andb_true_iff in E. destruct E as [E _]. apply Z.ltb_lt in E.
      rewrite offsets_loop_spec.
      pose proof (ceil_div_spec rc 100000 ltac:(lia)) as Hk.
      destruct (Z.to_nat (ceil_div rc 100000)) as [|k] eqn:Ek; [lia|].
      simpl. eexists. reflexivity.
    + eexists. reflexivity.
Qed.

End WrapperOverPages.

(** * Further concrete runs *)

(** X2, on a run: the second of three rows has the metric ["N/A"]. *)
Lemma get_ga_data_first_failure_witness :
  get_ga_data three_row_page = Raise ValueError.
Proof.
  apply (get_ga_data_first_failure three_row_page
           [ (two_metrics,
              {| dimensions := ["20200424"];
                 metrics := [ {| values := Some ["1"; "2"] |} ] |}) ]
           two_metrics
           {| dimensions := ["20200425"];
              metrics := [ {| values := Some ["N/A"; "2"] |} ] |}
           [ (two_metrics,
              {| dimensions := ["20200426"];
                 metrics := [ {| values := Some ["5"; "6"] |} ] |}) ]).
  - reflexivity.
  - intros h r [E|[]]. injection E as <- <-. reflexivity.
  - reflexivity.
Defined.

(** X3, on a run: the keys of a row with one dimension and two metrics. *)
Lemma row_dict_keys_witness :
  Py.keys [("ga:date", Py.Str "20200426"); ("ga:sessions", Py.Int 3);
           ("ga:users", Py.Int 4)] =
  ["ga:date"; "ga:sessions"; "ga:users"].
Proof.
  apply (proj1 (proj2 (proj2 (row_dict_keys two_metrics surplus_row _ eq_refl)))).
  repeat constructor; simpl; intuition discriminate.
Defined.

(** X4, on a run. *)
Lemma date_range_without_values_raises_witness :
  row_dict two_metrics row_without_values = Raise TypeError.
Proof.
  apply (date_range_without_values_raises two_metrics row_without_values
           [ {| values := Some ["1"; "2"] |} ] {| values := None |} []).
  - reflexivity.
  - reflexivity.
  - intros g [<-|[]]. eexists. split; [reflexivity|].
    intros mh v [E|[E|[]]]; injection E as <- <-; reflexivity.
Defined.

(** X5, on a run: the second date range of [ragged_row] assigns
    ["ga:sessions"] again and leaves ["ga:users"] as the first set it. *)
Lemma row_dict_last_assignment_wins_witness :
  last_assigned "ga:sessions" (row_writes two_metrics ragged_row) =
    Some (Ok (Py.Int 3)) /\
  last_assigned "ga:users" (row_writes two_metrics ragged_row) =
    Some (Ok (Py.Int 2)).
Proof.
  split;
    rewrite <- (row_dict_last_assignment_wins two_metrics ragged_row _ eq_refl);
    reflexivity.
Defined.

(** X7, on a run. *)
Lemma load_dimensions_and_metrics_result_witness :
  load_dimensions_and_metrics (fun _ => Ok sample_catalog)
    "AnalyticsReporting2_dimensions_and_metrics.json" "traffic" =
  Ok (JArray [JObject [("name", JString "ga:date")]],
      JArray [JObject [("expression", JString "ga:sessions")]]).
Proof.
  apply (load_dimensions_and_metrics_result (fun _ => Ok sample_catalog)
           "AnalyticsReporting2_dimensions_and_metrics.json" "traffic"
           sample_catalog eq_refl).
  eexists. eexists. repeat split; reflexivity.
Defined.

(** X8, on a run: the table of two equal rows. *)
Lemma table_of_uniform_rows_witness :
  columns (strip_columns (pd_DataFrame (one_row ++ one_row))) =
  ["date"; "sessions"].
Proof.
  apply (table_of_uniform_rows (one_row ++ one_row) ["ga:date"; "ga:sessions"]).
  - discriminate.
  - intros d [<-|[<-|[]]]; reflexivity.
  - repeat constructor; simpl; intuition discriminate.
Defined.

(** X9, on a run: of 250000 rows, row 123456 is in the page at offset
    100000. *)
Lemma offsets_tile_the_rows_witness :
  exists offset,
    In offset (offset_list 250000 (Some "100000")) /\
    offset <= 123456 < offset + 100000 /\
    forall offset',
      In offset' (offset_list 250000 (Some "100000")) ->
      offset' <= 123456 < offset' + 100000 -> offset' = offset.
Proof.
  apply (offsets_tile_the_rows 250000 (Some "100000")).
  - right. discriminate.
  - lia.
Defined.

(** X10, on a run: two first pages of 250000 rows with different rows. *)
Lemma get_response_reads_only_the_metadata_witness :
  get_response "view" (always (Ok big_page)) analyticsreporting_v4 big_page
    "2020-04-26" "2020-04-26" [] [] new_world =
  get_response "view" (always (Ok big_page)) analyticsreporting_v4
    big_page_other_row "2020-04-26" "2020-04-26" [] [] new_world.
Proof.
  apply (get_response_reads_only_the_metadata "view" (always (Ok big_page))
           "2020-04-26" "2020-04-26" [] [] big_page big_page_other_row
           _ _ _ _ new_world eq_refl eq_refl eq_refl eq_refl).
  - split; discriminate.
  - reflexivity.
  - reflexivity.
Defined.

(** X11, on a run: the service breaks after the first page of three. *)
Lemma get_response_page_failure_witness :
  exists w',
    get_response "view" (breaks_after 1 big_page (OtherError "timeout"))
      analyticsreporting_v4 big_page "2020-04-26" "2020-04-26" [] []
      new_world = (Raise (OtherError "timeout"), w') /\
    tokens_sent w' = ["0"; "100000"].
Proof.
  eexists. split.
  - apply (get_response_page_failure "view"
             (breaks_after 1 big_page (OtherError "timeout"))
             "2020-04-26" "2020-04-26" [] [] big_page _ _ 250000 new_world
             ["0"] "100000" ["200000"] [one_row] (OtherError "timeout")
             eq_refl eq_refl eq_refl eq_refl eq_refl).
    + repeat constructor. exists big_page. split; reflexivity.
    + left. reflexivity.
  - reflexivity.
Defined.


(** X15, on a run. *)
Lemma sampled_report_is_not_retried_witness :
  exists w',
    get_dataframes "view" (always (Ok sampled_page)) one_half
      "2020-04-26" "2020-04-26" [] [] new_world =
      (Raise SampledDataError, w') /\
    tokens_sent w' = ["0"] /\ builds w' = 1%nat /\ sleeps w' = [].
Proof.
  eexists. split.
  - apply (sampled_report_is_not_retried "view" (always (Ok sampled_page))
             one_half "2020-04-26" "2020-04-26" [] [] new_world sampled_page
             _ _ eq_refl eq_refl eq_refl eq_refl).
    discriminate.
  - repeat split; reflexivity.
Defined.

(** X16, on a run: a response without reports. *)
Lemma malformed_first_page_is_not_retried_witness :
  exists w',
    get_dataframes "view" (always (Ok empty_response)) one_half
      "2020-04-26" "2020-04-26" [] [] new_world = (Raise IndexError, w') /\
    tokens_sent w' = ["0"] /\ sleeps w' = [].
Proof.
  eexists. split.
  - apply (proj1 (malformed_first_page_is_not_retried "view"
                    (always (Ok empty_response)) one_half
                    "2020-04-26" "2020-04-26" [] [] new_world empty_response
                    eq_refl)).
    reflexivity.
  - split; reflexivity.
Defined.

(** X17, on a run: a report of 250000 rows costs four requests. *)
Lemma get_dataframes_fetches_the_first_page_twice_witness :
  exists w',
    get_dataframes "view" (always (Ok big_page)) one_half
      "2020-04-26" "2020-04-26" [] [] new_world =
      (Ok (Some (strip_columns (pd_DataFrame (one_row ++ one_row ++ one_row)))),
       w') /\
    tokens_sent w' = ["0"; "0"; "100000"; "200000"].
Proof.
  destruct (get_dataframes_fetches_the_first_page_twice "view"
              (always (Ok big_page)) one_half "2020-04-26" "2020-04-26" [] []
              new_world big_page _ _ 250000 [one_row; one_row; one_row]
              eq_refl eq_refl eq_refl eq_refl eq_refl)
    as (E & _).
  - repeat constructor; exists big_page; split; reflexivity.
  - eexists. split; [exact E|reflexivity].
Defined.
